(** * Verification of the kuala-api request handlers

    A shallow embedding of the Deno/Hono handlers of kuala-api:
    - [handleAuthorize], [handleExchangeToken], [handleRefreshToken],
      [handleLogout], [handleMe] (identity-provider wrappers);
    - [fetchKillBillPlans] and [handlePlans] (catalog transformer);
    - [handleCreateSubscription] with [getOrCreateKillBillAccount],
      [checkExistingSubscription] and [createKillBillSubscription].

    JavaScript values are [jval]; a property read that may be [undefined]
    is a [jsv] ([None] is [undefined]).  Every handler runs in a small
    state-and-exception monad [M] whose state is the list of downstream
    HTTP calls issued so far, and the answers of the downstream services
    are given by a [World] record (a network failure is [None]). *)

From Stdlib Require Import String Ascii List ZArith QArith Bool Lia FunctionalExtensionality.
Import ListNotations.
Open Scope string_scope.
Set Warnings "-register-all".
Open Scope Z_scope.

(* ------------------------------------------------------------------ *)
(** ** JavaScript values *)

Inductive jval : Type :=
| JNull
| JBool (b : bool)
| JNum (n : Z)
| JStr (s : string)
| JArr (xs : list jval)
| JObj (fields : list (string * jval)).

(** A value that may be [undefined]. *)
Definition jsv := option jval.

(** JavaScript truthiness ([!!v]). *)
Definition truthy (v : jsv) : bool :=
  match v with
  | None | Some JNull => false
  | Some (JBool b) => b
  | Some (JNum n) => negb (Z.eqb n 0)
  | Some (JStr s) => negb (String.eqb s "")
  | Some (JArr _) | Some (JObj _) => true
  end.

(** [a || b] *)
Definition js_or (a b : jsv) : jsv := if truthy a then a else b.

(** [JSON.parse] keeps the last of duplicated keys. *)
Fixpoint obj_lookup (fs : list (string * jval)) (k : string) : jsv :=
  match fs with
  | [] => None
  | (k', v) :: fs' =>
      match obj_lookup fs' k with
      | Some w => Some w
      | None => if String.eqb k k' then Some v else None
      end
  end.

(** Optional string as a JavaScript value ([Deno.env.get], query params,
    header reads). *)
Definition jstr (o : option string) : jsv :=
  match o with Some s => Some (JStr s) | None => None end.

Definition truthy_str (o : option string) : bool := truthy (jstr o).

(** The string held by a query parameter or header once its truthiness
    has been checked. *)
Definition str_of (o : option string) : string :=
  match o with Some s => s | None => "" end.

(* ------------------------------------------------------------------ *)
(** ** Downstream calls and their answers *)

(** [fetch] resolves to a response; [response.json()] may reject,
    which is [body = None]. *)
Record Resp (A : Type) : Type := mkResp {
  status : Z;
  location : option string;   (* headers.get("Location") *)
  body : option A
}.
Arguments mkResp {A}.
Arguments status {A}.
Arguments location {A}.
Arguments body {A}.

(** [response.ok] *)
Definition ok {A} (r : Resp A) : bool := ((200 <=? status r) && (status r <=? 299))%Z.

(** [None]: the fetch promise rejects (network error). *)
Definition Fetched (A : Type) := option (Resp A).

(* ------------------------------------------------------------------ *)
(** ** Kill Bill and Plan types (_shared/types) *)

Record KillBillPrice : Type := mkKillBillPrice {
  kbprice_currency : string;
  kbprice_value : Q
}.

Record KillBillPhase : Type := mkKillBillPhase {
  phase_type : string;
  phase_prices : list KillBillPrice
}.

Record KillBillPlan : Type := mkKillBillPlan {
  kbplan_name : string;
  kbplan_phases : list KillBillPhase
}.

Record KillBillProduct : Type := mkKillBillProduct {
  product_name : string;
  product_prettyName : option string;
  product_plans : list KillBillPlan;
  product_included : option (list string)
}.

Record PriceList : Type := mkPriceList {
  pricelist_name : string;
  pricelist_plans : list string
}.

Record KillBillCatalog : Type := mkKillBillCatalog {
  catalog_products : list KillBillProduct;
  catalog_priceLists : list PriceList
}.

(** The tier read from [PRODUCT_TIER_MAPPING[product.name] || "basic"]:
    a string, or (for a key such as ["toString"]) a member inherited
    from [Object.prototype]. *)
Inductive Tier : Type :=
| TierStr (s : string)
| TierProto (key : string).

Record Price : Type := mkPrice {
  price_currency : string;
  price_amount : Q
}.

Record ContactUs : Type := mkContactUs {
  contact_email : string;
  contact_phone : string;
  contact_body : string
}.

Record Plan : Type := mkPlan {
  plan_id : string;
  plan_name : string;
  plan_tier : Tier;
  plan_features : list string;
  plan_prices : list Price;
  plan_selectable : bool;
  plan_contactUs : option ContactUs
}.

Record KillBillAccount : Type := mkKillBillAccount {
  accountId : string;
  account_name : string;
  account_email : string;
  account_externalKey : string;
  account_currency : string
}.

Record KillBillSubscription : Type := mkKillBillSubscription {
  sub_subscriptionId : string;
  sub_planName : string;
  sub_state : string;
  sub_cancelledDate : option string
}.

(** An element of the bundles array; [subscriptions] may be absent. *)
Record KillBillBundle : Type := mkKillBillBundle {
  bundle_subscriptions : option (list KillBillSubscription)
}.

(** Body of POST /1.0/kb/accounts. *)
Record AccountData : Type := mkAccountData {
  ad_name : string;
  ad_email : string;
  ad_externalKey : string;
  ad_currency : string
}.

(** Body of POST /1.0/kb/subscriptions. *)
Record SubscriptionData : Type := mkSubscriptionData {
  sd_accountId : string;
  sd_externalKey : string;
  sd_planName : jsv
}.

(* ------------------------------------------------------------------ *)
(** ** Downstream calls *)

(** One constructor per [fetch] call site; it carries what the request
    depends on. *)
Inductive Call : Type :=
| CKbCatalog (url : string)
| CKbAccountByKey (baseUrl externalKey : string)
| CKbCreateAccount (baseUrl : string) (data : AccountData)
| CKbGetAccount (url : string)
| CKbBundles (baseUrl accountId : string)
| CKbCreateSubscription (baseUrl : string) (data : SubscriptionData)
| CSbAuthorize (authBase redirect_to code_challenge : string)
| CSbToken (authBase grant_type : string) (payload : list (string * jsv)) (apikey : string)
| CSbLogout (authBase authorization apikey : string)
| CSbUser (authBase authorization apikey : string).

(** The answers of the billing engine and of the identity provider. *)
Record World : Type := mkWorld {
  kb_catalog : string -> Fetched (list KillBillCatalog);
  kb_account_by_key : string -> string -> Fetched KillBillAccount;
  kb_create_account : string -> AccountData -> Fetched unit;
  kb_get_account : string -> Fetched KillBillAccount;
  (** body [None]: unparsable or JSON [null] *)
  kb_bundles : string -> string -> Fetched (list KillBillBundle);
  kb_create_subscription : string -> SubscriptionData -> Fetched unit;
  sb_authorize : string -> string -> string -> Fetched unit;
  sb_token : string -> string -> list (string * jsv) -> string -> Fetched jval;
  sb_logout : string -> string -> string -> Fetched jval;
  sb_user : string -> string -> string -> Fetched jval
}.

(* ------------------------------------------------------------------ *)
(** ** The handler monad: exceptions and the trace of downstream calls *)

Inductive Exn : Type :=
| Error (msg : string)
| TypeError.

Definition M (A : Type) : Type := list Call -> (Exn + A) * list Call.

Definition ret {A} (a : A) : M A := fun tr => (inr a, tr).

Definition bind {A B} (m : M A) (k : A -> M B) : M B :=
  fun tr => match m tr with
            | (inl e, tr') => (inl e, tr')
            | (inr a, tr') => k a tr'
            end.

Definition throw {A} (e : Exn) : M A := fun tr => (inl e, tr).

(** [try { m } catch (e) { h(e) }] *)
Definition try_catch {A} (m : M A) (h : Exn -> M A) : M A :=
  fun tr => match m tr with
            | (inl e, tr') => h e tr'
            | (inr a, tr') => (inr a, tr')
            end.

Notation "x <- m ;; k" := (bind m (fun x => k))
  (at level 61, m at next level, right associativity).

(** [await fetch(...)]: the call is recorded, then the answer is used. *)
Definition fetch {A} (c : Call) (ans : Fetched A) : M (Resp A) :=
  fun tr => match ans with
            | None => (inl (Error "fetch failed"), app tr [c])
            | Some r => (inr r, app tr [c])
            end.

(** [await response.json()] *)
Definition json {A} (r : Resp A) : M A :=
  match body r with
  | None => throw (Error "Unexpected end of JSON input")
  | Some a => ret a
  end.

(** [v.k] on a value that is neither [null] nor [undefined]. *)
Definition get_prop (v : jval) (k : string) : jsv :=
  match v with
  | JObj fs => obj_lookup fs k
  | JArr xs => if String.eqb k "length" then Some (JNum (Z.of_nat (length xs))) else None
  | JStr s => if String.eqb k "length" then Some (JNum (Z.of_nat (String.length s))) else None
  | JNull | JBool _ | JNum _ => None
  end.

(** [v.k]: a [TypeError] on [null] and [undefined]. *)
Definition js_get (v : jsv) (k : string) : M jsv :=
  match v with
  | None | Some JNull => throw TypeError
  | Some x => ret (get_prop x k)
  end.

(* ------------------------------------------------------------------ *)
(** ** Replies to the client *)

Inductive RBody : Type :=
| BError (code message : jsv)        (* ErrorResponse *)
| BPlans (plans : list Plan)
| BData (data : jval)                 (* downstream JSON passed through *)
| BNull.

Inductive Reply : Type :=
| RJson (b : RBody) (status : jsv) (locationHeader : option string)  (* c.json *)
| RRedirect (url : string) (status : Z)                                (* c.redirect *)
| RBodyNull (status : Z).                                              (* c.body(null, s) *)

(** [c.json({code, message}, status)] with literal code and message. *)
Definition err (code message : string) (st : Z) : Reply :=
  RJson (BError (Some (JStr code)) (Some (JStr message))) (Some (JNum st)) None.

(* ------------------------------------------------------------------ *)
(** ** String helpers (ASCII semantics of the regular expressions) *)

(** [\w] *)
Definition is_word_char (c : ascii) : bool :=
  let n := nat_of_ascii c in
  (Nat.leb 48 n && Nat.leb n 57) || (Nat.leb 65 n && Nat.leb n 90)
  || (Nat.leb 97 n && Nat.leb n 122) || Nat.eqb n 95.

Definition ascii_upper (c : ascii) : ascii :=
  let n := nat_of_ascii c in
  if Nat.leb 97 n && Nat.leb n 122 then ascii_of_nat (n - 32) else c.

Definition ascii_lower (c : ascii) : ascii :=
  let n := nat_of_ascii c in
  if Nat.leb 65 n && Nat.leb n 90 then ascii_of_nat (n + 32) else c.

Fixpoint map_string (f : ascii -> ascii) (s : string) : string :=
  match s with
  | EmptyString => EmptyString
  | String c s' => String (f c) (map_string f s')
  end.

(** [s.toLowerCase()]: only ASCII letters can lower-case into the ASCII
    needles ["annual"] and ["monthly"] compared against below. *)
Definition toLowerCase (s : string) : string := map_string ascii_lower s.

(** [s.replace(/-/g, " ")] *)
Definition replace_hyphens (s : string) : string :=
  map_string (fun c => if Ascii.eqb c "-"%char then " "%char else c) s.

(** [s.replace(/\b\w/g, (l) => l.toUpperCase())]; [prev_word] tells
    whether the previous character is a word character. *)
Fixpoint upper_word_starts (prev_word : bool) (s : string) : string :=
  match s with
  | EmptyString => EmptyString
  | String c s' =>
      String (if negb prev_word && is_word_char c then ascii_upper c else c)
             (upper_word_starts (is_word_char c) s')
  end.

Definition humanize_feature (feature : string) : string :=
  upper_word_starts false (replace_hyphens feature).

(** [hay.includes(needle)] *)
Fixpoint includes (hay needle : string) : bool :=
  String.prefix needle hay ||
  match hay with
  | EmptyString => false
  | String _ hay' => includes hay' needle
  end.

(** [s.replace(/\/$/, "")] *)
Fixpoint strip_trailing_slash (s : string) : string :=
  match s with
  | EmptyString => EmptyString
  | String c EmptyString => if Ascii.eqb c "/"%char then EmptyString else s
  | String c s' => String c (strip_trailing_slash s')
  end.

(** [s.split("/").pop()] *)
Fixpoint last_segment (s acc : string) : string :=
  match s with
  | EmptyString => acc
  | String c s' =>
      if Ascii.eqb c "/"%char then last_segment s' EmptyString
      else last_segment s' (acc ++ String c EmptyString)
  end.

(** Decimal rendering of a natural number ([`${Date.now()}`]). *)
Fixpoint decimal_aux (fuel : nat) (n : N) (acc : string) : string :=
  match fuel with
  | O => acc
  | S fuel' =>
      let acc' := String (ascii_of_N (48 + N.modulo n 10)) acc in
      if N.ltb n 10 then acc' else decimal_aux fuel' (N.div n 10) acc'
  end.

Definition N_to_decimal (n : N) : string :=
  decimal_aux (S (N.to_nat (N.log2 n))) n EmptyString.

(** JavaScript white space among ASCII characters: tab, line feed,
    vertical tab, form feed, carriage return and space. *)
Definition is_js_space (c : ascii) : bool :=
  let n := nat_of_ascii c in (Nat.leb 9 n && Nat.leb n 13) || Nat.eqb n 32.

Fixpoint trim_start (s : string) : string :=
  match s with
  | EmptyString => EmptyString
  | String c s' => if is_js_space c then trim_start s' else s
  end.

Fixpoint trim_end (s : string) : string :=
  match s with
  | EmptyString => EmptyString
  | String c s' =>
      match trim_end s' with
      | EmptyString => if is_js_space c then EmptyString else String c EmptyString
      | t => String c t
      end
  end.

(** [s.trim()] *)
Definition trim (s : string) : string := trim_end (trim_start s).

(** [s.split(sep)] for a one-character separator; [acc] is the piece
    being read. *)
Fixpoint split_aux (sep : ascii) (s acc : string) : list string :=
  match s with
  | EmptyString => [acc]
  | String c s' =>
      if Ascii.eqb c sep then acc :: split_aux sep s' EmptyString
      else split_aux sep s' (acc ++ String c EmptyString)
  end.

Definition split_on (sep : ascii) (s : string) : list string := split_aux sep s EmptyString.

(* ------------------------------------------------------------------ *)
(** ** _shared/cors-headers.ts (src/unnamed/part_011): [getAllowedOrigin] *)

Definition getAllowedOrigin (requestOrigin : option string) (configuredOrigin : string)
    : option string :=
  if String.eqb configuredOrigin "*" then Some "*" else
  if negb (truthy_str requestOrigin) then None else
  let allowedOrigins := map trim (split_on ","%char configuredOrigin) in
  if existsb (String.eqb (str_of requestOrigin)) allowedOrigins then requestOrigin else None.

(** The headers [corsMiddleware] sets on [c.res] for an allowed origin. *)
Definition cors_headers (allowedOrigin : string) : list (string * string) :=
  [("Access-Control-Allow-Origin", allowedOrigin);
   ("Access-Control-Allow-Headers", "authorization, x-client-info, apikey, content-type");
   ("Access-Control-Allow-Methods", "GET,POST,PUT,DELETE")].

Section Handlers.

(** [Deno.env.get] *)
Variable env : string -> option string.
(** [new URL(s)] (and [new URL(path, s)]) does not throw. *)
Variable valid_url : string -> bool.
(** [new URL(c.req.url).origin] *)
Variable url_origin : string -> string.
(** The downstream services. *)
Variable W : World.

(** [Deno.env.get(k) || ""] *)
Definition env_or_empty (k : string) : string :=
  match env k with Some s => s | None => "" end.

(* ------------------------------------------------------------------ *)
(** ** plans/index.ts: catalog transformer *)

Definition object_prototype_keys : list string :=
  ["constructor"; "__defineGetter__"; "__defineSetter__"; "hasOwnProperty";
   "__lookupGetter__"; "__lookupSetter__"; "isPrototypeOf";
   "propertyIsEnumerable"; "toString"; "valueOf"; "__proto__";
   "toLocaleString"].

(** [PRODUCT_TIER_MAPPING[k]] *)
Definition PRODUCT_TIER_MAPPING (k : string) : option Tier :=
  if String.eqb k "Free" then Some (TierStr "free")
  else if String.eqb k "Basic" then Some (TierStr "basic")
  else if String.eqb k "Premium" then Some (TierStr "premium")
  else if String.eqb k "Enterprise" then Some (TierStr "enterprise")
  else if existsb (String.eqb k) object_prototype_keys then Some (TierProto k)
  else None.

(** [PRODUCT_TIER_MAPPING[product.name] || "basic"]: every mapped value
    is truthy. *)
Definition tier_of (productName : string) : Tier :=
  match PRODUCT_TIER_MAPPING productName with
  | Some t => t
  | None => TierStr "basic"
  end.

(** [tier === "enterprise"] *)
Definition is_enterprise (t : Tier) : bool :=
  match t with
  | TierStr s => String.eqb s "enterprise"
  | TierProto _ => false
  end.

Definition getEnterpriseContactConfig : ContactUs :=
  mkContactUs (env_or_empty "ENTERPRISE_CONTACT_EMAIL")
              (env_or_empty "ENTERPRISE_CONTACT_PHONE")
              (env_or_empty "ENTERPRISE_CONTACT_MESSAGE").

(** The body of [product.plans.forEach((plan) => ...)]: [None] when the
    plan is skipped by one of the two [return]s, else the pushed plan. *)
Definition plan_entry (contact : ContactUs) (catalog : KillBillCatalog)
    (product : KillBillProduct) (plan : KillBillPlan) : option Plan :=
  match find (fun phase => String.eqb (phase_type phase) "EVERGREEN")
             (kbplan_phases plan) with
  | None => None
  | Some evergreenPhase =>
      let defaultPriceList :=
        find (fun pl => String.eqb (pricelist_name pl) "DEFAULT")
             (catalog_priceLists catalog) in
      match defaultPriceList with
      | None => None
      | Some dpl =>
          if negb (existsb (String.eqb (kbplan_name plan)) (pricelist_plans dpl))
          then None
          else
            let tier := tier_of (product_name product) in
            let features :=
              match product_included product with
              | Some ((_ :: _) as inc) => map humanize_feature inc
              | _ => []
              end in
            let prices :=
              map (fun price => mkPrice (kbprice_currency price) (kbprice_value price))
                  (phase_prices evergreenPhase) in
            let name :=
              match product_prettyName product with
              | Some s => if String.eqb s "" then product_name product else s
              | None => product_name product
              end in
            Some (mkPlan (kbplan_name plan) name tier features prices
                         (negb (is_enterprise tier))
                         (if is_enterprise tier then Some contact else None))
      end
  end.

Definition option_to_list {A} (o : option A) : list A :=
  match o with Some a => [a] | None => [] end.

(** The two nested [forEach] loops pushing into [plans]. *)
Definition transform_catalog (contact : ContactUs) (catalog : KillBillCatalog) : list Plan :=
  flat_map (fun product =>
              flat_map (fun plan => option_to_list (plan_entry contact catalog product plan))
                       (product_plans product))
           (catalog_products catalog).

(** [catalogs[catalogs.length - 1]] *)
Definition last_catalog (catalogs : list KillBillCatalog) : option KillBillCatalog :=
  match rev catalogs with
  | [] => None
  | c :: _ => Some c
  end.

Definition catalog_url : string :=
  let baseUrl := strip_trailing_slash (env_or_empty "KILLBILL_BASE_URL") in
  if String.eqb baseUrl "" then "/1.0/kb/catalog" else baseUrl ++ "/1.0/kb/catalog".

Definition fetchKillBillPlans : M (list Plan) :=
  let enterpriseContactConfig := getEnterpriseContactConfig in
  let url := catalog_url in
  try_catch
    (response <- fetch (CKbCatalog url) (kb_catalog W url) ;;
     if negb (ok response) then throw (Error "Kill Bill API error") else
     catalogs <- json response ;;
     match last_catalog catalogs with
     | None => throw (Error "No catalog available from Kill Bill")
     | Some catalog => ret (transform_catalog enterpriseContactConfig catalog)
     end)
    (fun error => throw error).

(** The interval filter of [handlePlans]. *)
Definition interval_filter (interval : string) (plan : Plan) : bool :=
  if String.eqb interval "year"
  then includes (toLowerCase (plan_id plan)) "annual"
  else includes (toLowerCase (plan_id plan)) "monthly".

(** [interval ? plans.filter(...) : plans] *)
Definition filter_by_interval (interval : option string) (plans : list Plan) : list Plan :=
  if truthy_str interval then filter (interval_filter (str_of interval)) plans else plans.

(** [filteredPlans.length === 0 ? 404 : 200] *)
Definition plans_response (filteredPlans : list Plan) : Reply :=
  match filteredPlans with
  | [] => err "NO_PLANS_AVAILABLE" "No plans available for the specified interval" 404
  | _ => RJson (BPlans filteredPlans) (Some (JNum 200)) None
  end.

(** [c.req.query("interval")] is [interval]. *)
Definition handlePlans (interval : option string) : M Reply :=
  try_catch
    (try_catch
       (if truthy_str interval
           && negb (match interval with
                    | Some s => String.eqb s "month" || String.eqb s "year"
                    | None => false
                    end)
        then ret (err "INVALID_INTERVAL" "Interval must be 'month' or 'year'" 400)
        else
          plans <- fetchKillBillPlans ;;
          let filteredPlans := filter_by_interval interval plans in
          ret (plans_response filteredPlans))
       (fun killBillError =>
          ret (err "KILLBILL_UNAVAILABLE" "Kill Bill service is currently unavailable" 503)))
    (fun error => ret (err "INTERNAL_ERROR" "Failed to fetch plans" 500)).


(* ------------------------------------------------------------------ *)
(** ** Identity-provider wrappers (handlers/auth) *)

(** [Deno.env.get(k) || fallback] *)
Definition env_or (k fallback : string) : string :=
  match env k with
  | Some s => if String.eqb s "" then fallback else s
  | None => fallback
  end.

(** [await c.req.json()]: [None] when the body is not JSON. *)
Definition parse_body (reqBody : option jval) : M jval :=
  match reqBody with
  | None => throw (Error "Malformed JSON in request body")
  | Some b => ret b
  end.

(** [new URL(path, base)] *)
Definition check_base (base : string) : M unit :=
  if valid_url base then ret tt else throw TypeError.

Definition internal_error : Reply := err "INTERNAL_ERROR" "Internal server error" 500.

(** The error remapping shared by exchange-token, logout and me:
    [status = data.code || response.status || 500],
    [code: data.error_code || "SUPABASE_ERROR"],
    [message: data.error_description || data.msg || "Error from Supabase"]. *)
Definition supabase_error_reply (data : jval) (responseStatus : Z) : M Reply :=
  code <- js_get (Some data) "code" ;;
  error_code <- js_get (Some data) "error_code" ;;
  error_description <- js_get (Some data) "error_description" ;;
  msg <- js_get (Some data) "msg" ;;
  let st := js_or code (js_or (Some (JNum responseStatus)) (Some (JNum 500))) in
  ret (RJson (BError (js_or error_code (Some (JStr "SUPABASE_ERROR")))
                     (js_or error_description (js_or msg (Some (JStr "Error from Supabase")))))
             st None).

(** handlers/plans/index.ts (second part): [handleAuthorize].
    [redirectTo] and [codeChallenge] are the two query parameters and
    [reqUrl] is [c.req.url]. *)
Definition handleAuthorize (redirectTo codeChallenge : option string) (reqUrl : string) : M Reply :=
  try_catch
    (if negb (truthy_str redirectTo)
     then ret (err "MISSING_REDIRECT_TO" "redirect_to parameter is required" 400) else
     if negb (truthy_str codeChallenge)
     then ret (err "MISSING_CODE_CHALLENGE" "code_challenge parameter is required" 400) else
     let rt := str_of redirectTo in
     let cc := str_of codeChallenge in
     if negb (valid_url rt)
     then ret (err "INVALID_REDIRECT_TO" "redirect_to must be a valid URL" 400) else
     let supabaseBaseUrl := env_or "AUTH_BASE_URL" reqUrl in
     _ <- check_base supabaseBaseUrl ;;
     response <- fetch (CSbAuthorize supabaseBaseUrl rt cc) (sb_authorize W supabaseBaseUrl rt cc) ;;
     if negb (ok response) && negb (Z.eqb (status response) 302)
     then ret (RJson (BError (Some (JStr "SUPABASE_OAUTH_ERROR"))
                             (Some (JStr "Sorry, we encountered an error with the OAuth provider")))
                     (Some (JNum (status response))) None)
     else
       match location response with
       | Some locationHeader =>
           if String.eqb locationHeader ""
           then ret (err "NO_REDIRECT_LOCATION" "No redirect location found" 500)
           else ret (RRedirect locationHeader 302)
       | None => ret (err "NO_REDIRECT_LOCATION" "No redirect location found" 500)
       end)
    (fun error => ret internal_error).

(** handlers/auth/exchange-token.ts *)
Definition handleExchangeToken (reqBody : option jval) (reqUrl : string) : M Reply :=
  try_catch
    (body <- parse_body reqBody ;;
     auth_code <- js_get (Some body) "auth_code" ;;
     code_verifier <- js_get (Some body) "code_verifier" ;;
     if negb (truthy auth_code)
     then ret (err "MISSING_AUTH_CODE" "auth_code is required" 400) else
     if negb (truthy code_verifier)
     then ret (err "MISSING_CODE_VERIFIER" "code_verifier is required" 400) else
     let supabaseBaseUrl := env_or "AUTH_BASE_URL" reqUrl in
     _ <- check_base supabaseBaseUrl ;;
     let supabaseRequestBody := [("auth_code", auth_code); ("code_verifier", code_verifier)] in
     let apikey := env "AUTH_SUPABASE_ANON_KEY" in
     if negb (truthy_str apikey)
     then ret (err "MISSING_API_KEY" "Supabase API key not configured" 500) else
     let key := str_of apikey in
     response <- fetch (CSbToken supabaseBaseUrl "pkce" supabaseRequestBody key)
                       (sb_token W supabaseBaseUrl "pkce" supabaseRequestBody key) ;;
     data <- json response ;;
     _ <- js_get (Some data) "access_token" ;;   (* logged *)
     if negb (ok response) then supabase_error_reply data (status response)
     else ret (RJson (BData data) (Some (JNum 200)) None))
    (fun error => ret internal_error).

(** handlers/auth/refresh-token.ts *)
Definition handleRefreshToken (reqBody : option jval) (reqUrl : string) : M Reply :=
  try_catch
    (body <- parse_body reqBody ;;
     refresh_token <- js_get (Some body) "refresh_token" ;;
     if negb (truthy refresh_token)
     then ret (err "MISSING_REFRESH_TOKEN" "refresh_token is required" 400) else
     let supabaseBaseUrl := env_or "SUPABASE_URL" reqUrl in
     _ <- check_base supabaseBaseUrl ;;
     let supabaseRequestBody := [("refresh_token", refresh_token)] in
     let apikey := env "SUPABASE_ANON_KEY" in
     if negb (truthy_str apikey)
     then ret (err "MISSING_API_KEY" "Supabase API key not configured" 500) else
     let key := str_of apikey in
     response <- fetch (CSbToken supabaseBaseUrl "refresh_token" supabaseRequestBody key)
                       (sb_token W supabaseBaseUrl "refresh_token" supabaseRequestBody key) ;;
     data <- json response ;;
     if negb (ok response) then
       code <- js_get (Some data) "code" ;;
       error_code <- js_get (Some data) "error_code" ;;
       msg <- js_get (Some data) "msg" ;;
       ret (RJson (BError (js_or error_code (Some (JStr "SUPABASE_ERROR")))
                          (js_or msg (Some (JStr "Error from Supabase"))))
                  (js_or code (Some (JNum 500))) None)
     else ret (RJson (BData data) (Some (JNum 200)) None))
    (fun error => ret internal_error).

(** handleLogout (src/unnamed/part_006); [authorization] is
    [c.req.header("Authorization")]. *)
Definition handleLogout (authorization : option string) (reqUrl : string) : M Reply :=
  try_catch
    (if negb (truthy_str authorization)
     then ret (err "MISSING_AUTHORIZATION" "Authorization header is required" 401) else
     let auth := str_of authorization in
     let supabaseBaseUrl := env_or "AUTH_BASE_URL" reqUrl in
     _ <- check_base supabaseBaseUrl ;;
     let apikey := env "AUTH_SUPABASE_ANON_KEY" in
     if negb (truthy_str apikey)
     then ret (err "MISSING_API_KEY" "Supabase API key not configured" 500) else
     let key := str_of apikey in
     response <- fetch (CSbLogout supabaseBaseUrl auth key) (sb_logout W supabaseBaseUrl auth key) ;;
     if negb (ok response) then
       data <- json response ;;
       _ <- js_get (Some data) "error_code" ;;   (* logged *)
       supabase_error_reply data (status response)
     else ret (RBodyNull 204))
    (fun error => ret internal_error).

(** handlers/auth/me.ts *)
Definition handleMe (authorization : option string) (reqUrl : string) : M Reply :=
  try_catch
    (if negb (truthy_str authorization)
     then ret (err "MISSING_AUTHORIZATION" "Authorization header is required" 401) else
     let auth := str_of authorization in
     let supabaseBaseUrl := env_or "AUTH_BASE_URL" reqUrl in
     _ <- check_base supabaseBaseUrl ;;
     let apikey := env "AUTH_SUPABASE_ANON_KEY" in
     if negb (truthy_str apikey)
     then ret (err "MISSING_API_KEY" "Supabase API key not configured" 500) else
     let key := str_of apikey in
     response <- fetch (CSbUser supabaseBaseUrl auth key) (sb_user W supabaseBaseUrl auth key) ;;
     data <- json response ;;
     _ <- js_get (Some data) "error" ;;   (* logged *)
     if negb (ok response) then supabase_error_reply data (status response)
     else ret (RJson (BData data) (Some (JNum 200)) None))
    (fun error => ret internal_error).

(* ------------------------------------------------------------------ *)
(** ** handlers/subscriptions/create.ts *)

Record AuthenticatedUser : Type := mkAuthenticatedUser {
  user_id : string;
  user_email : option string
}.

Definition killbill_base : string := strip_trailing_slash (env_or_empty "KILLBILL_BASE_URL").

Definition getOrCreateKillBillAccount (userId email : string) : M KillBillAccount :=
  let baseUrl := killbill_base in
  existing <- try_catch
                (getResponse <- fetch (CKbAccountByKey baseUrl userId)
                                      (kb_account_by_key W baseUrl userId) ;;
                 if ok getResponse
                 then account <- json getResponse ;; ret (Some account)
                 else ret None)
                (fun error => ret None) ;;
  match existing with
  | Some account => ret account
  | None =>
      let accountData := mkAccountData email email userId
                                       (env_or_empty "KILLBILL_DEFAULT_CURRENCY") in
      createResponse <- fetch (CKbCreateAccount baseUrl accountData)
                              (kb_create_account W baseUrl accountData) ;;
      if negb (ok createResponse)
      then throw (Error "Failed to create Kill Bill account") else
      let accountLocation := str_of (location createResponse) in
      if String.eqb accountLocation ""
      then throw (Error "Failed to get account location") else
      accountResponse <- fetch (CKbGetAccount accountLocation)
                               (kb_get_account W accountLocation) ;;
      if negb (ok accountResponse)
      then throw (Error "Failed to fetch account details") else
      json accountResponse
  end.

(** [sub.state === "ACTIVE" && !sub.cancelledDate] *)
Definition active_not_cancelled (sub : KillBillSubscription) : bool :=
  String.eqb (sub_state sub) "ACTIVE" && negb (truthy_str (sub_cancelledDate sub)).

(** The two nested [for] loops over the bundles. *)
Fixpoint find_active_subscription (bundles : list KillBillBundle) : option KillBillSubscription :=
  match bundles with
  | [] => None
  | bundle :: rest =>
      match match bundle_subscriptions bundle with
            | Some ((_ :: _) as subs) => find active_not_cancelled subs
            | _ => None
            end with
      | Some sub => Some sub
      | None => find_active_subscription rest
      end
  end.

Definition checkExistingSubscription (accountId : string) : M (option KillBillSubscription) :=
  let baseUrl := killbill_base in
  try_catch
    (response <- fetch (CKbBundles baseUrl accountId) (kb_bundles W baseUrl accountId) ;;
     if negb (ok response) then ret None else
     bundles <- json response ;;
     match bundles with
     | [] => ret None
     | _ => ret (find_active_subscription bundles)
     end)
    (fun error => ret None).

(** [response.headers.get("Location")?.split("/").pop() || "unknown"] *)
Definition subscription_id_of (loc : option string) : string :=
  match loc with
  | None => "unknown"
  | Some l => let seg := last_segment l EmptyString in
              if String.eqb seg "" then "unknown" else seg
  end.

(** [now] is [Date.now()]. *)
Definition createKillBillSubscription (accountId : string) (planId : jsv) (now : N) : M string :=
  let baseUrl := killbill_base in
  let subscriptionData :=
    mkSubscriptionData accountId ("sub-" ++ accountId ++ "-" ++ N_to_decimal now) planId in
  response <- fetch (CKbCreateSubscription baseUrl subscriptionData)
                    (kb_create_subscription W baseUrl subscriptionData) ;;
  if negb (ok response) then throw (Error "Failed to create subscription") else
  ret (subscription_id_of (location response)).

(** [user] is [c.get("user")] (set by [authMiddleware]), [reqBody] the
    parsed request body, [reqUrl] is [c.req.url]. *)
Definition handleCreateSubscription (user : option AuthenticatedUser) (reqBody : option jval)
    (reqUrl : string) (now : N) : M Reply :=
  try_catch
    (u <- match user with
          | None => throw (Error "User not found in context. Did you apply authMiddleware?")
          | Some u => ret u
          end ;;
     body <- parse_body reqBody ;;
     planId <- js_get (Some body) "planId" ;;
     if negb (truthy planId)
     then ret (err "MISSING_PLAN_ID" "planId is required" 400) else
     account <- getOrCreateKillBillAccount (user_id u) (str_of (user_email u)) ;;
     existingSubscription <- checkExistingSubscription (accountId account) ;;
     match existingSubscription with
     | Some _ =>
         ret (err "ALREADY_SUBSCRIBED" "Already subscribed to a non-cancellable plan" 409)
     | None =>
         created <- try_catch
                      (subscriptionId <- createKillBillSubscription (accountId account) planId now ;;
                       ret (Some subscriptionId))
                      (fun _ => ret None) ;;
         match created with
         | None => ret (err "SUBSCRIPTION_CREATION_FAILED" "Failed to create subscription" 500)
         | Some subscriptionId =>
             let baseUrl := url_origin reqUrl in
             ret (RJson BNull (Some (JNum 201))
                        (Some (baseUrl ++ "/subscriptions/" ++ subscriptionId)))
         end
     end)
    (fun error => ret (err "INTERNAL_ERROR" "Failed to create subscription" 500)).

(* ------------------------------------------------------------------ *)
(** ** Authentication middleware (handlers/plans/index.ts, third part) *)

(** [getAuthenticatedUser(authorization, c)]: [None] is [null]. The URL
    is built before the [try]. *)
Definition getAuthenticatedUser (authorization reqUrl : string) : M (option jval) :=
  let supabaseBaseUrl := env_or "AUTH_BASE_URL" reqUrl in
  _ <- check_base supabaseBaseUrl ;;
  let apikey := env "AUTH_SUPABASE_ANON_KEY" in
  if negb (truthy_str apikey) then ret None else
  let key := str_of apikey in
  try_catch
    (response <- fetch (CSbUser supabaseBaseUrl authorization key)
                       (sb_user W supabaseBaseUrl authorization key) ;;
     if negb (ok response) then ret None else
     user <- json response ;;
     _ <- js_get (Some user) "id" ;;      (* logged *)
     _ <- js_get (Some user) "email" ;;   (* logged *)
     ret (Some user))
    (fun error => ret None).

(** [authMiddleware(c, next)]; [next u] runs the rest of the chain with
    [c.get("user")] set to [u], and its response is the response. *)
Definition authMiddleware (authorization : option string) (reqUrl : string)
    (next : jval -> M Reply) : M Reply :=
  if negb (truthy_str authorization)
  then ret (err "MISSING_AUTHORIZATION" "Authorization header is required" 401) else
  user <- getAuthenticatedUser (str_of authorization) reqUrl ;;
  match user with
  | Some u =>
      if negb (truthy (Some u)) || negb (truthy (get_prop u "id"))
         || negb (truthy (get_prop u "email"))
      then ret (err "UNAUTHORIZED" "Invalid or expired token" 401)
      else next u
  | None => ret (err "UNAUTHORIZED" "Invalid or expired token" 401)
  end.

(* ------------------------------------------------------------------ *)
(** ** CORS (src/unnamed/part_011 and middleware/cors.ts) *)

Record CorsConfig : Type := mkCorsConfig {
  cors_enabled : bool;
  cors_origin : string
}.

(** [getCorsConfig()] *)
Definition getCorsConfig : CorsConfig :=
  mkCorsConfig
    (match env "CORS_ENABLED" with
     | Some s => negb (String.eqb (toLowerCase s) "false")
     | None => true
     end)
    (env_or "CORS_ORIGIN" "*").

(** [corsMiddleware(c, next)]: the reply, and the headers set on [c.res]
    by the middleware, in the order of the [set] calls. [method] is
    [c.req.method] and [origin] is [c.req.header("Origin")]. *)
Definition corsMiddleware (method : string) (origin : option string) (next : M Reply)
    : M (Reply * list (string * string)) :=
  let config := getCorsConfig in
  if negb (cors_enabled config) then r <- next ;; ret (r, []) else
  if String.eqb method "OPTIONS" then
    let allowedOrigin := getAllowedOrigin origin (cors_origin config) in
    ret (RBodyNull 204,
         if truthy_str allowedOrigin
         then (cors_headers (str_of allowedOrigin) ++ [("Access-Control-Max-Age", "86400")])%list
         else [])
  else
    r <- next ;;
    let allowedOrigin := getAllowedOrigin origin (cors_origin config) in
    ret (r, if truthy_str allowedOrigin then cors_headers (str_of allowedOrigin) else []).

End Handlers.

(** Running a handler from an empty trace. *)
Definition run {A} (m : M A) : (Exn + A) * list Call := m [].

(** What [checkExistingSubscription] makes of the answer of the bundles
    endpoint. *)
Definition bundles_verdict (ans : Fetched (list KillBillBundle)) : option KillBillSubscription :=
  match ans with
  | None => None
  | Some r =>
      if ok r then
        match body r with
        | Some bs => find_active_subscription bs
        | None => None
        end
      else None
  end.

(** The same services, except that every failing answer of the bundles
    endpoint (rejected fetch or non-2xx status) is replaced by a
    successful answer with no bundle. *)
Definition absorb_bundle_failures (W : World) : World :=
  mkWorld (kb_catalog W) (kb_account_by_key W) (kb_create_account W) (kb_get_account W)
    (fun baseUrl accountId =>
       match kb_bundles W baseUrl accountId with
       | Some r => if ok r then Some r else Some (mkResp 200 None (Some []))
       | None => Some (mkResp 200 None (Some []))
       end)
    (kb_create_subscription W) (sb_authorize W) (sb_token W) (sb_logout W) (sb_user W).

Definition is_create_subscription (c : Call) : bool :=
  match c with CKbCreateSubscription _ _ => true | _ => false end.

(** The error body as the specification words it, with nullish
    coalescing [??]: only [undefined] and [null] fall through. *)
Definition nullish (a b : jsv) : jsv :=
  match a with None | Some JNull => b | _ => a end.

Definition spec_error_body (fields : list (string * jval)) : RBody :=
  BError (nullish (obj_lookup fields "error_code") (Some (JStr "SUPABASE_ERROR")))
         (nullish (obj_lookup fields "error_description")
                  (nullish (obj_lookup fields "msg") (Some (JStr "Error from Supabase")))).

(* ------------------------------------------------------------------ *)
(** ** Sample configuration, catalog and services *)

Definition env_fx (k : string) : option string :=
  if String.eqb k "AUTH_BASE_URL" then Some "https://auth.example.com"
  else if String.eqb k "AUTH_SUPABASE_ANON_KEY" then Some "anon-key"
  else if String.eqb k "SUPABASE_URL" then Some "https://auth.example.com"
  else if String.eqb k "SUPABASE_ANON_KEY" then Some "anon-key"
  else if String.eqb k "KILLBILL_BASE_URL" then Some "https://billing.example.com/"
  else if String.eqb k "ENTERPRISE_CONTACT_EMAIL" then Some "sales@example.com"
  else None.

Definition valid_url_fx (s : string) : bool := String.prefix "https://" s.

Definition url_origin_fx (reqUrl : string) : string := "https://api.example.com".

Definition req_fx : string := "https://api.example.com/v1/request".

Definition phase_evergreen : KillBillPhase :=
  mkKillBillPhase "EVERGREEN" [mkKillBillPrice "USD" 10].

Definition phase_trial : KillBillPhase := mkKillBillPhase "TRIAL" [].

Definition product_basic : KillBillProduct :=
  mkKillBillProduct "Basic" (Some "Basic plan")
    [mkKillBillPlan "basic-monthly" [phase_trial; phase_evergreen];
     mkKillBillPlan "basic-annual" [phase_evergreen];
     mkKillBillPlan "basic-legacy" [phase_evergreen];
     mkKillBillPlan "basic-trial" [phase_trial]]
    (Some ["api_access"]).

Definition product_enterprise : KillBillProduct :=
  mkKillBillProduct "Enterprise" None [mkKillBillPlan "Enterprise-ANNUAL" [phase_evergreen]] None.

Definition catalog_fx : KillBillCatalog :=
  mkKillBillCatalog [product_basic; product_enterprise]
    [mkPriceList "SPECIAL" ["basic-legacy"];
     mkPriceList "DEFAULT" ["basic-monthly"; "basic-annual"; "basic-trial"; "Enterprise-ANNUAL"]].

Definition account_fx : KillBillAccount :=
  mkKillBillAccount "acc-1" "ana@example.com" "ana@example.com" "user-1" "USD".

Definition user_fx : AuthenticatedUser := mkAuthenticatedUser "user-1" (Some "ana@example.com").

Definition order_fx : jval := JObj [("planId", JStr "basic-monthly")].

Definition bundles_fx (subs : list KillBillSubscription) : Fetched (list KillBillBundle) :=
  Some (mkResp 200 None (Some [mkKillBillBundle (Some subs)])).

Definition created_fx : Fetched unit :=
  Some (mkResp 201 (Some "https://billing.example.com/1.0/kb/subscriptions/sub-42") None).


Definition token_error_fx (fields : list (string * jval)) : Fetched jval :=
  Some (mkResp 400 None (Some (JObj fields))).

(** Services that answer every request the same way. *)
Definition world_fx (catalogs : list KillBillCatalog) (bundles : Fetched (list KillBillBundle))
    (created : Fetched unit) (token : Fetched jval) : World :=
  mkWorld (fun _ => Some (mkResp 200 None (Some catalogs)))
    (fun _ _ => Some (mkResp 200 None (Some account_fx)))
    (fun _ _ => Some (mkResp 201 (Some "https://billing.example.com/1.0/kb/accounts/acc-1") None))
    (fun _ => Some (mkResp 200 None (Some account_fx)))
    (fun _ _ => bundles)
    (fun _ _ => created)
    (fun _ _ _ => Some (mkResp 302 (Some "https://accounts.example.com/o/oauth2/auth") None))
    (fun _ _ _ _ => token)
    (fun _ _ _ => token)
    (fun _ _ _ => token).

Definition plans_fx : list Plan := transform_catalog (getEnterpriseContactConfig env_fx) catalog_fx.

Definition world_plain : World := world_fx [mkKillBillCatalog [] []; catalog_fx] None None None.

Definition sub_active : KillBillSubscription :=
  mkKillBillSubscription "sub-7" "basic-monthly" "ACTIVE" None.

(** An active subscription whose [cancelledDate] is the empty string. *)
Definition sub_empty_date : KillBillSubscription :=
  mkKillBillSubscription "sub-8" "basic-monthly" "ACTIVE" (Some "").

Definition sub_cancelled : KillBillSubscription :=
  mkKillBillSubscription "sub-9" "basic-monthly" "CANCELLED" (Some "2026-01-01T00:00:00.000Z").

(** The same configuration without the identity-provider API key. *)
Definition env_nokey (k : string) : option string :=
  if String.eqb k "AUTH_SUPABASE_ANON_KEY" then None else env_fx k.

(** The same configuration with a base URL that is not a valid URL. *)
Definition env_badbase (k : string) : option string :=
  if String.eqb k "AUTH_BASE_URL" then Some "auth.example.com" else env_fx k.

(** Services that are all unreachable. *)
Definition world_offline : World :=
  mkWorld (fun _ => None) (fun _ _ => None) (fun _ _ => None) (fun _ => None)
    (fun _ _ => None) (fun _ _ => None) (fun _ _ _ => None) (fun _ _ _ _ => None)
    (fun _ _ _ => None) (fun _ _ _ => None).

Definition user_json_fx : jval :=
  JObj [("id", JStr "user-1"); ("email", JStr "ana@example.com")].

(** The identity provider knows the user of every token. *)
Definition world_user : World :=
  world_fx [] None None (Some (mkResp 200 None (Some user_json_fx))).

(** No account has the external key yet; creation succeeds. *)
Definition world_new_account : World :=
  mkWorld (fun _ => None)
    (fun _ _ => Some (mkResp 404 None None))
    (fun _ _ => Some (mkResp 201 (Some "https://billing.example.com/1.0/kb/accounts/acc-1") None))
    (fun _ => Some (mkResp 200 None (Some account_fx)))
    (fun _ _ => None) (fun _ _ => None) (fun _ _ _ => None) (fun _ _ _ _ => None)
    (fun _ _ _ => None) (fun _ _ _ => None).

(** The identity provider redirects with an empty [Location] header. *)
Definition world_empty_location : World :=
  mkWorld (fun _ => None) (fun _ _ => None) (fun _ _ => None) (fun _ => None)
    (fun _ _ => None) (fun _ _ => None) (fun _ _ _ => Some (mkResp 302 (Some "") None))
    (fun _ _ _ _ => None) (fun _ _ _ => None) (fun _ _ _ => None).

Definition next_fx (u : jval) : M Reply := ret (RJson (BData u) (Some (JNum 200)) None).

(* ================================================================== *)
(** * Properties *)

(** The reply a handler run ends with. *)
Definition reply_of (r : (Exn + Reply) * list Call) : option Reply :=
  match fst r with inr rep => Some rep | inl _ => None end.

(** ** Fail-fast validation *)

(** C4: for every endpoint, a request whose required input is missing
    (absent or empty) is rejected with the [MISSING_*] code of the first
    missing field, with HTTP 400 (401 for a missing [Authorization]
    header), and no downstream call is issued.  For the token endpoints
    and for subscriptions the request body is a JSON object; the
    subscription handler runs behind the authentication middleware, so
    the user is present in the request context. *)
Theorem missing_required_fields_rejected
    (env : string -> option string) (valid_url : string -> bool)
    (url_origin : string -> string) (W : World) (reqUrl : string) :
  (forall rt cc, truthy_str rt = false ->
     run (handleAuthorize env valid_url W rt cc reqUrl)
     = (inr (err "MISSING_REDIRECT_TO" "redirect_to parameter is required" 400), [])) /\
  (forall rt cc, truthy_str rt = true -> truthy_str cc = false ->
     run (handleAuthorize env valid_url W rt cc reqUrl)
     = (inr (err "MISSING_CODE_CHALLENGE" "code_challenge parameter is required" 400), [])) /\
  (forall fields, truthy (obj_lookup fields "auth_code") = false ->
     run (handleExchangeToken env valid_url W (Some (JObj fields)) reqUrl)
     = (inr (err "MISSING_AUTH_CODE" "auth_code is required" 400), [])) /\
  (forall fields, truthy (obj_lookup fields "auth_code") = true ->
     truthy (obj_lookup fields "code_verifier") = false ->
     run (handleExchangeToken env valid_url W (Some (JObj fields)) reqUrl)
     = (inr (err "MISSING_CODE_VERIFIER" "code_verifier is required" 400), [])) /\
  (forall fields, truthy (obj_lookup fields "refresh_token") = false ->
     run (handleRefreshToken env valid_url W (Some (JObj fields)) reqUrl)
     = (inr (err "MISSING_REFRESH_TOKEN" "refresh_token is required" 400), [])) /\
  (forall u fields now, truthy (obj_lookup fields "planId") = false ->
     run (handleCreateSubscription env url_origin W (Some u) (Some (JObj fields)) reqUrl now)
     = (inr (err "MISSING_PLAN_ID" "planId is required" 400), [])) /\
  (forall auth, truthy_str auth = false ->
     run (handleLogout env valid_url W auth reqUrl)
     = (inr (err "MISSING_AUTHORIZATION" "Authorization header is required" 401), [])) /\
  (forall auth, truthy_str auth = false ->
     run (handleMe env valid_url W auth reqUrl)
     = (inr (err "MISSING_AUTHORIZATION" "Authorization header is required" 401), [])).
Proof.
  repeat split; intros *;
    [ intros H | intros H1 H2 | intros H | intros H1 H2 | intros H | intros H | intros H | intros H ];
    cbv [run handleAuthorize handleExchangeToken handleRefreshToken handleCreateSubscription
         handleLogout handleMe try_catch bind ret parse_body js_get get_prop];
    repeat match goal with E : _ = _ |- _ => rewrite E; clear E end;
    reflexivity.
Qed.

(** ** Authorize: translation of the identity provider's answer *)

Lemma truthy_str_some (s : string) : s <> "" -> truthy_str (Some s) = true.
Proof.
  intros H. unfold truthy_str, truthy, jstr.
  destruct (String.eqb_spec s ""); [contradiction | reflexivity].
Qed.

(** C5: with a present [redirect_to] that is a valid URL and a present
    [code_challenge], the answer [r] of the identity provider is
    translated as follows: a 302 carrying a non-empty [Location] [L]
    becomes a 302 redirect to [L]; a 302 whose [Location] is absent or
    empty ([!locationHeader]) becomes 500 [NO_REDIRECT_LOCATION]; any other non-2xx status [S] becomes
    [SUPABASE_OAUTH_ERROR] with HTTP status [S].  Exactly one downstream
    call is issued. *)
Theorem authorize_translates_downstream_response
    (env : string -> option string) (valid_url : string -> bool) (W : World)
    (rt cc reqUrl : string) (r : Resp unit)
    (Hrt : rt <> "") (Hcc : cc <> "") (Hvalid : valid_url rt = true)
    (Hbase : valid_url (env_or env "AUTH_BASE_URL" reqUrl) = true)
    (Hans : sb_authorize W (env_or env "AUTH_BASE_URL" reqUrl) rt cc = Some r) :
  (forall L, status r = 302 -> location r = Some L -> L <> "" ->
     run (handleAuthorize env valid_url W (Some rt) (Some cc) reqUrl)
     = (inr (RRedirect L 302), [CSbAuthorize (env_or env "AUTH_BASE_URL" reqUrl) rt cc])) /\
  (status r = 302 -> (location r = None \/ location r = Some "") ->
     run (handleAuthorize env valid_url W (Some rt) (Some cc) reqUrl)
     = (inr (err "NO_REDIRECT_LOCATION" "No redirect location found" 500),
        [CSbAuthorize (env_or env "AUTH_BASE_URL" reqUrl) rt cc])) /\
  (ok r = false -> status r <> 302 ->
     run (handleAuthorize env valid_url W (Some rt) (Some cc) reqUrl)
     = (inr (RJson (BError (Some (JStr "SUPABASE_OAUTH_ERROR"))
                          (Some (JStr "Sorry, we encountered an error with the OAuth provider")))
                   (Some (JNum (status r))) None),
        [CSbAuthorize (env_or env "AUTH_BASE_URL" reqUrl) rt cc])).
Proof.
  pose proof (truthy_str_some rt Hrt) as Trt.
  pose proof (truthy_str_some cc Hcc) as Tcc.
  unfold run, handleAuthorize, try_catch, bind, ret, check_base, fetch.
  rewrite Trt, Tcc. cbn [negb str_of]. rewrite Hvalid, Hbase, Hans. cbn [negb andb app].
  repeat split.
  - intros L Hs Hl HL. unfold ok. rewrite Hs, Hl. cbn.
    destruct (String.eqb_spec L ""); [contradiction | reflexivity].
  - intros Hs [Hl|Hl]; unfold ok; rewrite Hs, Hl; reflexivity.
  - intros Hok Hs. rewrite Hok. cbn [negb andb].
    destruct (Z.eqb_spec (status r) 302); [contradiction | reflexivity].
Qed.

(** ** Subscription creation: malformed bodies *)

(** C10: on POST /subscriptions, a body that does not parse as JSON
    ([c.req.json()] rejects) is answered 500 [INTERNAL_ERROR] by the
    top-level catch, without any downstream call; the 400
    [MISSING_PLAN_ID] answer arises only when the user is present, the
    body parsed (to a value other than [null]) and its [planId] is
    absent or empty (falsy), and then no downstream call was made. *)
Theorem subscription_unparsable_body_internal_error
    (env : string -> option string) (url_origin : string -> string) (W : World) :
  (forall u reqUrl now,
     run (handleCreateSubscription env url_origin W (Some u) None reqUrl now)
     = (inr (err "INTERNAL_ERROR" "Failed to create subscription" 500), [])) /\
  (forall user reqBody reqUrl now tr,
     run (handleCreateSubscription env url_origin W user reqBody reqUrl now)
     = (inr (err "MISSING_PLAN_ID" "planId is required" 400), tr) ->
     exists u b, user = Some u /\ reqBody = Some b /\ b <> JNull
                 /\ truthy (get_prop b "planId") = false /\ tr = []).
Proof.
  split.
  - intros u reqUrl now. reflexivity.
  - intros user reqBody reqUrl now tr H.
    unfold run in H.
    cbv [handleCreateSubscription try_catch bind ret parse_body js_get throw] in H.
    destruct user as [u|]; [|discriminate H].
    destruct reqBody as [b|]; [|discriminate H].
    assert (Hb : b <> JNull) by (intros ->; discriminate H).
    destruct (truthy (get_prop b "planId")) eqn:Hp.
    + exfalso. destruct b; try (exfalso; apply Hb; reflexivity);
      rewrite Hp in H; cbn [negb] in H;
      destruct (getOrCreateKillBillAccount env W _ _ _) as [[e|acct] tr1]; try discriminate H;
      destruct (checkExistingSubscription env W _ _) as [[e|[sub|]] tr2]; try discriminate H;
      destruct (createKillBillSubscription env W _ _ _ _) as [[e|sid] tr3]; discriminate H.
    + exists u, b. destruct b; try (exfalso; apply Hb; reflexivity);
      cbn [negb] in H; rewrite Hp in H; injection H as <-; repeat split; assumption.
Qed.

(** ** The catalog transformer *)

Lemma last_catalog_app (cs : list KillBillCatalog) (c : KillBillCatalog) :
  last_catalog (cs ++ [c])%list = Some c.
Proof. unfold last_catalog. rewrite rev_app_distr. reflexivity. Qed.

Lemma fetchKillBillPlans_last env W r cs c tr :
  kb_catalog W (catalog_url env) = Some r -> ok r = true -> body r = Some (cs ++ [c])%list ->
  fetchKillBillPlans env W tr
  = (inr (transform_catalog (getEnterpriseContactConfig env) c), app tr [CKbCatalog (catalog_url env)]).
Proof.
  intros Hans Hok Hbody.
  unfold fetchKillBillPlans, try_catch, bind, fetch, json, ret.
  rewrite Hans, Hok. cbn [negb]. rewrite Hbody, last_catalog_app. reflexivity.
Qed.

Lemma fetchKillBillPlans_inr env W tr ps tr' :
  fetchKillBillPlans env W tr = (inr ps, tr') ->
  exists c, ps = transform_catalog (getEnterpriseContactConfig env) c.
Proof.
  unfold fetchKillBillPlans, try_catch, bind, fetch, json, ret, throw.
  destruct (kb_catalog W (catalog_url env)) as [r|]; [|discriminate].
  destruct (ok r); cbn [negb]; [|discriminate].
  destruct (body r) as [cs|]; [|discriminate].
  destruct (last_catalog cs) as [c|]; [|discriminate].
  intros H. injection H as <- _. eauto.
Qed.

Lemma in_transform_catalog contact c p :
  In p (transform_catalog contact c) <->
  exists product plan, In product (catalog_products c) /\ In plan (product_plans product)
                       /\ plan_entry contact c product plan = Some p.
Proof.
  unfold transform_catalog. rewrite in_flat_map. split.
  - intros [product [Hprod Hp]]. rewrite in_flat_map in Hp.
    destruct Hp as [plan [Hplan Hp]].
    destruct (plan_entry contact c product plan) as [q|] eqn:E; [|contradiction].
    destruct Hp as [<-|[]]. eauto.
  - intros [product [plan [Hprod [Hplan E]]]]. exists product. split; [assumption|].
    rewrite in_flat_map. exists plan. split; [assumption|]. rewrite E. left. reflexivity.
Qed.

Lemma plan_entry_some_iff contact c product plan :
  (exists p, plan_entry contact c product plan = Some p) <->
  (exists phase, In phase (kbplan_phases plan) /\ phase_type phase = "EVERGREEN") /\
  (exists pl, find (fun pl => String.eqb (pricelist_name pl) "DEFAULT") (catalog_priceLists c) = Some pl
              /\ In (kbplan_name plan) (pricelist_plans pl)).
Proof.
  unfold plan_entry.
  destruct (find (fun phase => String.eqb (phase_type phase) "EVERGREEN") (kbplan_phases plan))
    as [ev|] eqn:Ev.
  - apply find_some in Ev. destruct Ev as [Hin Hev]. apply String.eqb_eq in Hev.
    destruct (find (fun pl => String.eqb (pricelist_name pl) "DEFAULT") (catalog_priceLists c))
      as [dpl|] eqn:Dp.
    + destruct (existsb (String.eqb (kbplan_name plan)) (pricelist_plans dpl)) eqn:Ex;
        cbn [negb].
      * split; intros _; [|eauto].
        split; [eauto|].
        exists dpl. split; [reflexivity|].
        apply existsb_exists in Ex. destruct Ex as [x [Hx Hxe]].
        apply String.eqb_eq in Hxe. subst x. assumption.
      * split; [intros [p Hp]; discriminate Hp|].
        intros [_ [pl [Hpl Hmem]]]. injection Hpl as <-.
        assert (existsb (String.eqb (kbplan_name plan)) (pricelist_plans dpl) = true) as Ht.
        { apply existsb_exists. exists (kbplan_name plan). split; [assumption|].
          apply String.eqb_refl. }
        congruence.
    + split; [intros [p Hp]; discriminate Hp|].
      intros [_ [pl [Hpl _]]]. discriminate Hpl.
  - split; [intros [p Hp]; discriminate Hp|].
    intros [[phase [Hin Hty]] _].
    pose proof (find_none _ _ Ev phase Hin) as Hf. cbn in Hf.
    rewrite Hty in Hf. discriminate Hf.
Qed.

(** C6: when the catalog fetch succeeds with the array [cs ++ [c]], the
    transformer works on its last element [c] and returns without error;
    for every product and every plan of that product, the plan's entry
    is in the output if and only if (a) the plan has a phase of type
    ["EVERGREEN"] and (b) the plan's name belongs to the plans of the
    price list named exactly ["DEFAULT"] (the first such list); and
    every output plan is the entry of such a plan. *)
Theorem catalog_transformer_filters_plans
    (env : string -> option string) (W : World) (r : Resp (list KillBillCatalog))
    (cs : list KillBillCatalog) (c : KillBillCatalog)
    (Hans : kb_catalog W (catalog_url env) = Some r) (Hok : ok r = true)
    (Hbody : body r = Some (cs ++ [c])%list) :
  run (fetchKillBillPlans env W)
  = (inr (transform_catalog (getEnterpriseContactConfig env) c), [CKbCatalog (catalog_url env)]) /\
  (forall product plan,
     In product (catalog_products c) -> In plan (product_plans product) ->
     ((exists p, plan_entry (getEnterpriseContactConfig env) c product plan = Some p
                 /\ In p (transform_catalog (getEnterpriseContactConfig env) c))
      <->
      (exists phase, In phase (kbplan_phases plan) /\ phase_type phase = "EVERGREEN") /\
      (exists pl, find (fun pl => String.eqb (pricelist_name pl) "DEFAULT") (catalog_priceLists c)
                  = Some pl
                  /\ In (kbplan_name plan) (pricelist_plans pl)))) /\
  (forall p, In p (transform_catalog (getEnterpriseContactConfig env) c) ->
     exists product plan, In product (catalog_products c) /\ In plan (product_plans product)
                          /\ plan_entry (getEnterpriseContactConfig env) c product plan = Some p).
Proof.
  split; [|split].
  - apply (fetchKillBillPlans_last env W r cs c []); assumption.
  - intros product plan Hprod Hplan. rewrite <- plan_entry_some_iff. split.
    + intros [p [Hp _]]. eauto.
    + intros [p Hp]. exists p. split; [assumption|].
      apply in_transform_catalog. eauto 6.
  - intros p Hp. apply in_transform_catalog. assumption.
Qed.

(** ** The plans handler *)

Lemma is_enterprise_iff (t : Tier) : is_enterprise t = true <-> t = TierStr "enterprise".
Proof.
  destruct t as [s|k]; cbn.
  - rewrite String.eqb_eq. split; [intros ->|intros H; injection H]; auto.
  - split; discriminate.
Qed.

Lemma plan_entry_enterprise contact c product plan p :
  plan_entry contact c product plan = Some p ->
  plan_selectable p = negb (is_enterprise (plan_tier p)) /\
  plan_contactUs p = (if is_enterprise (plan_tier p) then Some contact else None).
Proof.
  unfold plan_entry.
  destruct (find _ (kbplan_phases plan)); [|discriminate].
  destruct (find _ (catalog_priceLists c)); [|discriminate].
  destruct (negb _); [discriminate|].
  intros H. injection H as <-. cbn. split; reflexivity.
Qed.

Lemma in_filter_by_interval interval ps p :
  In p (filter_by_interval interval ps) -> In p ps.
Proof.
  unfold filter_by_interval. destruct (truthy_str interval); [|auto].
  rewrite filter_In. tauto.
Qed.

(** With an interval that is not rejected, [handlePlans] answers from
    the outcome of [fetchKillBillPlans]. *)
Lemma handlePlans_accepted env W interval :
  (truthy_str interval = false \/ interval = Some "month" \/ interval = Some "year") ->
  run (handlePlans env W interval)
  = match fetchKillBillPlans env W [] with
    | (inl _, tr) => (inr (err "KILLBILL_UNAVAILABLE" "Kill Bill service is currently unavailable" 503), tr)
    | (inr ps, tr) => (inr (plans_response (filter_by_interval interval ps)), tr)
    end.
Proof.
  intros Hint. unfold run, handlePlans, try_catch, bind, ret.
  assert (Hacc : truthy_str interval
                 && negb (match interval with
                          | Some s => String.eqb s "month" || String.eqb s "year"
                          | None => false
                          end) = false).
  { destruct Hint as [H|[H|H]]; [rewrite H; reflexivity | subst; reflexivity | subst; reflexivity]. }
  rewrite Hacc.
  destruct (fetchKillBillPlans env W []) as [[e|ps] tr]; reflexivity.
Qed.

(** C8: in every successful /plans answer, a plan is selectable exactly
    when its tier is not ["enterprise"], and it carries a [contactUs]
    block exactly when its tier is ["enterprise"]; that block is the
    configured enterprise contact (email, phone, message). *)
Theorem plans_enterprise_contact_invariant
    (env : string -> option string) (W : World) (interval : option string)
    (ps : list Plan) (st : jsv) (loc : option string) (tr : list Call)
    (Hrun : run (handlePlans env W interval) = (inr (RJson (BPlans ps) st loc), tr)) :
  forall p, In p ps ->
    (plan_selectable p = true <-> plan_tier p <> TierStr "enterprise") /\
    (plan_contactUs p <> None <-> plan_tier p = TierStr "enterprise") /\
    (plan_tier p = TierStr "enterprise" -> plan_contactUs p = Some (getEnterpriseContactConfig env)).
Proof.
  intros p Hp.
  assert (Hsrc : exists ps0, fetchKillBillPlans env W [] = (inr ps0, tr) /\ In p ps0).
  { unfold run, handlePlans, try_catch, bind, ret in Hrun.
    destruct (truthy_str interval && _); [discriminate Hrun|].
    destruct (fetchKillBillPlans env W []) as [[e|ps0] tr0]; [discriminate Hrun|].
    unfold plans_response in Hrun.
    destruct (filter_by_interval interval ps0) as [|q qs] eqn:Hf; [discriminate Hrun|].
    injection Hrun as Hps _ _ Htr. subst.
    exists ps0. split; [reflexivity|]. apply (in_filter_by_interval interval).
    rewrite Hf. assumption. }
  destruct Hsrc as [ps0 [Hfetch Hin]].
  destruct (fetchKillBillPlans_inr env W [] ps0 tr Hfetch) as [c ->].
  apply in_transform_catalog in Hin.
  destruct Hin as [product [plan [_ [_ He]]]].
  destruct (plan_entry_enterprise _ _ _ _ _ He) as [Hsel Hcu].
  rewrite Hsel, Hcu, <- is_enterprise_iff.
  destruct (is_enterprise (plan_tier p)); cbn; intuition congruence.
Qed.

(** C3 (as amended): for GET /plans with an accepted interval (absent,
    empty, ["month"] or ["year"]), a catalog fetch that rejects or
    answers a non-2xx status gives 503 [KILLBILL_UNAVAILABLE]; a
    successful fetch whose array of catalog versions is empty also gives
    503 [KILLBILL_UNAVAILABLE] (the transformer throws "No catalog
    available"); a successful fetch of a non-empty array whose filtered
    plans are empty gives 404 [NO_PLANS_AVAILABLE]. *)
Theorem plans_catalog_outcomes
    (env : string -> option string) (W : World) (interval : option string)
    (Hint : truthy_str interval = false \/ interval = Some "month" \/ interval = Some "year") :
  ((kb_catalog W (catalog_url env) = None \/
    exists r, kb_catalog W (catalog_url env) = Some r /\ ok r = false) ->
   run (handlePlans env W interval)
   = (inr (err "KILLBILL_UNAVAILABLE" "Kill Bill service is currently unavailable" 503),
      [CKbCatalog (catalog_url env)])) /\
  (forall r, kb_catalog W (catalog_url env) = Some r -> ok r = true -> body r = Some [] ->
   run (handlePlans env W interval)
   = (inr (err "KILLBILL_UNAVAILABLE" "Kill Bill service is currently unavailable" 503),
      [CKbCatalog (catalog_url env)])) /\
  (forall r cs c, kb_catalog W (catalog_url env) = Some r -> ok r = true ->
   body r = Some (cs ++ [c])%list ->
   filter_by_interval interval (transform_catalog (getEnterpriseContactConfig env) c) = [] ->
   run (handlePlans env W interval)
   = (inr (err "NO_PLANS_AVAILABLE" "No plans available for the specified interval" 404),
      [CKbCatalog (catalog_url env)])).
Proof.
  rewrite (handlePlans_accepted env W interval Hint).
  split; [|split].
  - intros Hf. unfold fetchKillBillPlans, try_catch, bind, fetch, throw.
    destruct Hf as [-> | [r [-> Hok]]]; [reflexivity|].
    rewrite Hok. reflexivity.
  - intros r Hans Hok Hbody.
    unfold fetchKillBillPlans, try_catch, bind, fetch, json, ret, throw.
    rewrite Hans, Hok. cbn [negb]. rewrite Hbody. reflexivity.
  - intros r cs c Hans Hok Hbody Hempty.
    rewrite (fetchKillBillPlans_last env W r cs c [] Hans Hok Hbody), Hempty.
    reflexivity.
Qed.

(** C9 (as amended): a non-empty [interval] other than ["month"] and
    ["year"] gives 400 [INVALID_INTERVAL] before any downstream call;
    [interval=year] keeps exactly the fetched plans whose lower-cased id
    contains ["annual"], [interval=month] those whose lower-cased id
    contains ["monthly"]; an absent or empty [interval] keeps every
    fetched plan. *)
Theorem plans_interval_filtering (env : string -> option string) (W : World) :
  (forall s, s <> "" -> s <> "month" -> s <> "year" ->
     run (handlePlans env W (Some s))
     = (inr (err "INVALID_INTERVAL" "Interval must be 'month' or 'year'" 400), [])) /\
  (forall ps tr, fetchKillBillPlans env W [] = (inr ps, tr) ->
     run (handlePlans env W (Some "year"))
     = (inr (plans_response (filter (fun p => includes (toLowerCase (plan_id p)) "annual") ps)), tr)) /\
  (forall ps tr, fetchKillBillPlans env W [] = (inr ps, tr) ->
     run (handlePlans env W (Some "month"))
     = (inr (plans_response (filter (fun p => includes (toLowerCase (plan_id p)) "monthly") ps)), tr)) /\
  (forall interval ps tr, truthy_str interval = false ->
     fetchKillBillPlans env W [] = (inr ps, tr) ->
     run (handlePlans env W interval) = (inr (plans_response ps), tr)).
Proof.
  split; [|split; [|split]].
  - intros s H1 H2 H3. unfold run, handlePlans, try_catch, bind, ret.
    rewrite (truthy_str_some s H1).
    destruct (String.eqb_spec s "month"); [contradiction|].
    destruct (String.eqb_spec s "year"); [contradiction|]. reflexivity.
  - intros ps tr H. rewrite handlePlans_accepted by auto. rewrite H. reflexivity.
  - intros ps tr H. rewrite handlePlans_accepted by auto. rewrite H. reflexivity.
  - intros interval ps tr Hi H. rewrite handlePlans_accepted by auto. rewrite H.
    unfold filter_by_interval. rewrite Hi. reflexivity.
Qed.

(** ** Subscription creation: the existing-subscription check *)

Lemma checkExistingSubscription_spec env W a tr :
  checkExistingSubscription env W a tr
  = (inr (bundles_verdict (kb_bundles W (killbill_base env) a)),
     app tr [CKbBundles (killbill_base env) a]).
Proof.
  unfold checkExistingSubscription, bundles_verdict, try_catch, bind, fetch, json, ret, throw.
  destruct (kb_bundles W (killbill_base env) a) as [r|]; [|reflexivity].
  destruct (ok r); cbn [negb]; [|reflexivity].
  destruct (body r) as [[|b bs]|]; reflexivity.
Qed.

Lemma find_active_subscription_some bs bundle subs sub :
  In bundle bs -> bundle_subscriptions bundle = Some subs -> In sub subs ->
  active_not_cancelled sub = true ->
  exists s, find_active_subscription bs = Some s.
Proof.
  induction bs as [|b bs IH]; intros Hb Hs Hsub Ha; [destruct Hb|].
  cbn [find_active_subscription].
  destruct Hb as [<-|Hb].
  - rewrite Hs. destruct subs as [|x xs]; [destruct Hsub|].
    destruct (find active_not_cancelled (x :: xs)) as [s|] eqn:Hf; [eauto|].
    pose proof (find_none _ _ Hf sub Hsub). congruence.
  - destruct (match bundle_subscriptions b with
              | Some ((_ :: _) as subs0) => find active_not_cancelled subs0
              | _ => None end); eauto.
Qed.

Lemma find_active_subscription_none bs :
  (forall bundle subs sub, In bundle bs -> bundle_subscriptions bundle = Some subs ->
     In sub subs -> active_not_cancelled sub = false) ->
  find_active_subscription bs = None.
Proof.
  induction bs as [|b bs IH]; intros H; [reflexivity|].
  cbn [find_active_subscription].
  rewrite IH by (intros; eapply H; eauto; right; assumption).
  destruct (bundle_subscriptions b) as [[|x xs]|] eqn:Hs; try reflexivity.
  destruct (find active_not_cancelled (x :: xs)) as [s|] eqn:Hf; [|reflexivity].
  apply find_some in Hf. destruct Hf as [Hin Ha].
  rewrite (H b (x :: xs) s (or_introl eq_refl) Hs Hin) in Ha. discriminate.
Qed.

(** After the validation steps, [handleCreateSubscription] is the
    sequence account / check / create. *)
Lemma handleCreateSubscription_steps env url_origin W u b reqUrl now :
  b <> JNull -> truthy (get_prop b "planId") = true ->
  run (handleCreateSubscription env url_origin W (Some u) (Some b) reqUrl now)
  = match getOrCreateKillBillAccount env W (user_id u) (str_of (user_email u)) [] with
    | (inl _, tr1) => (inr (err "INTERNAL_ERROR" "Failed to create subscription" 500), tr1)
    | (inr account, tr1) =>
        match checkExistingSubscription env W (accountId account) tr1 with
        | (inl _, tr2) => (inr (err "INTERNAL_ERROR" "Failed to create subscription" 500), tr2)
        | (inr (Some _), tr2) =>
            (inr (err "ALREADY_SUBSCRIBED" "Already subscribed to a non-cancellable plan" 409), tr2)
        | (inr None, tr2) =>
            match createKillBillSubscription env W (accountId account) (get_prop b "planId") now tr2 with
            | (inl _, tr3) =>
                (inr (err "SUBSCRIPTION_CREATION_FAILED" "Failed to create subscription" 500), tr3)
            | (inr subscriptionId, tr3) =>
                (inr (RJson BNull (Some (JNum 201))
                            (Some (url_origin reqUrl ++ "/subscriptions/" ++ subscriptionId))), tr3)
            end
        end
    end.
Proof.
  intros Hb Hp.
  assert (Hj : forall tr, js_get (Some b) "planId" tr = (inr (get_prop b "planId"), tr))
    by (destruct b; [congruence|reflexivity..]).
  unfold run, handleCreateSubscription, try_catch, bind, ret, parse_body.
  cbv beta iota delta [ret].
  rewrite Hj, Hp; cbn [negb];
  destruct (getOrCreateKillBillAccount env W _ _ _) as [[e|acct] tr1]; try reflexivity;
  destruct (checkExistingSubscription env W _ _) as [[e|[sub|]] tr2]; try reflexivity;
  destruct (createKillBillSubscription env W _ _ _ _) as [[e|sid] tr3]; reflexivity.
Qed.

Lemma getOrCreateKillBillAccount_trace env W userId email res tr :
  getOrCreateKillBillAccount env W userId email [] = (res, tr) ->
  forall c, In c tr -> is_create_subscription c = false.
Proof.
  unfold getOrCreateKillBillAccount, try_catch, bind, fetch, json, ret, throw.
  destruct (kb_account_by_key W _ _) as [r0|];
    [destruct (ok r0); [destruct (body r0)|]|];
  cbn [negb app];
  repeat match goal with
         | |- context [match ?x with Some _ => _ | None => _ end] =>
             lazymatch x with
             | context [match _ with _ => _ end] => fail
             | _ => destruct x
             end
         | |- context [if ?x then _ else _] =>
             lazymatch x with
             | context [match _ with _ => _ end] => fail
             | _ => destruct x
             end
         end;
  cbn [negb app];
  intros H; injection H as _ <-; intros c Hc;
  repeat (destruct Hc as [<-|Hc]; [reflexivity|]); destruct Hc.
Qed.

(** After a check that found nothing, the handler issues the creation
    call and its reply follows the answer of the billing engine. *)
Lemma handleCreateSubscription_no_conflict env url_origin W u b reqUrl now account tr1 :
  b <> JNull -> truthy (get_prop b "planId") = true ->
  getOrCreateKillBillAccount env W (user_id u) (str_of (user_email u)) [] = (inr account, tr1) ->
  bundles_verdict (kb_bundles W (killbill_base env) (accountId account)) = None ->
  let sd := mkSubscriptionData (accountId account)
              ("sub-" ++ accountId account ++ "-" ++ N_to_decimal now) (get_prop b "planId") in
  let tr := app tr1 [CKbBundles (killbill_base env) (accountId account);
                     CKbCreateSubscription (killbill_base env) sd] in
  run (handleCreateSubscription env url_origin W (Some u) (Some b) reqUrl now)
  = match kb_create_subscription W (killbill_base env) sd with
    | Some rc =>
        if ok rc
        then (inr (RJson BNull (Some (JNum 201))
                         (Some (url_origin reqUrl ++ "/subscriptions/"
                                ++ subscription_id_of (location rc)))), tr)
        else (inr (err "SUBSCRIPTION_CREATION_FAILED" "Failed to create subscription" 500), tr)
    | None =>
        (inr (err "SUBSCRIPTION_CREATION_FAILED" "Failed to create subscription" 500), tr)
    end.
Proof.
  intros Hb Hp Hacc Hv sd tr.
  rewrite (handleCreateSubscription_steps env url_origin W u b reqUrl now Hb Hp), Hacc.
  rewrite checkExistingSubscription_spec, Hv.
  unfold createKillBillSubscription, bind, fetch, ret, throw.
  fold sd. unfold tr. rewrite <- app_assoc. cbn [app].
  destruct (kb_create_subscription W (killbill_base env) sd) as [rc|]; [|reflexivity].
  destruct (ok rc); reflexivity.
Qed.

(** C1 (amended). For [POST /subscriptions], with a signed-in user, a
    body whose [planId] is truthy and a billing account obtained for the
    user: if the bundles answer holds a subscription with state
    ["ACTIVE"] whose [cancelledDate] is absent, [null] or the empty string
    (falsy, as [!sub.cancelledDate] tests it), the reply is 409
    [ALREADY_SUBSCRIBED] and no creation call appears in the trace; if
    every subscription of the answer has a non-empty [cancelledDate] or a
    state other than ["ACTIVE"], the creation call is issued and the reply
    is 201 when the billing engine accepts it, and 500
    [SUBSCRIPTION_CREATION_FAILED] when it rejects it or the fetch fails. *)
Theorem subscription_conflict_check env url_origin W u b reqUrl now account tr1 :
  b <> JNull -> truthy (get_prop b "planId") = true ->
  getOrCreateKillBillAccount env W (user_id u) (str_of (user_email u)) [] = (inr account, tr1) ->
  let base := killbill_base env in
  let sd := mkSubscriptionData (accountId account)
              ("sub-" ++ accountId account ++ "-" ++ N_to_decimal now) (get_prop b "planId") in
  (forall r bs,
     kb_bundles W base (accountId account) = Some r -> ok r = true -> body r = Some bs ->
     (exists bundle subs sub,
        In bundle bs /\ bundle_subscriptions bundle = Some subs /\ In sub subs /\
        sub_state sub = "ACTIVE" /\ truthy_str (sub_cancelledDate sub) = false) ->
     run (handleCreateSubscription env url_origin W (Some u) (Some b) reqUrl now)
     = (inr (err "ALREADY_SUBSCRIBED" "Already subscribed to a non-cancellable plan" 409),
        app tr1 [CKbBundles base (accountId account)])
     /\ forallb (fun c => negb (is_create_subscription c))
          (snd (run (handleCreateSubscription env url_origin W (Some u) (Some b) reqUrl now)))
        = true)
  /\
  (forall r bs,
     kb_bundles W base (accountId account) = Some r -> ok r = true -> body r = Some bs ->
     (forall bundle subs sub,
        In bundle bs -> bundle_subscriptions bundle = Some subs -> In sub subs ->
        sub_state sub <> "ACTIVE" \/ exists d, sub_cancelledDate sub = Some d /\ d <> "") ->
     In (CKbCreateSubscription base sd)
        (snd (run (handleCreateSubscription env url_origin W (Some u) (Some b) reqUrl now)))
     /\ (forall rc, kb_create_subscription W base sd = Some rc -> ok rc = true ->
           reply_of (run (handleCreateSubscription env url_origin W (Some u) (Some b) reqUrl now))
           = Some (RJson BNull (Some (JNum 201))
                         (Some (url_origin reqUrl ++ "/subscriptions/"
                                ++ subscription_id_of (location rc)))))
     /\ ((kb_create_subscription W base sd = None
          \/ exists rc, kb_create_subscription W base sd = Some rc /\ ok rc = false) ->
           reply_of (run (handleCreateSubscription env url_origin W (Some u) (Some b) reqUrl now))
           = Some (err "SUBSCRIPTION_CREATION_FAILED" "Failed to create subscription" 500))).
Proof.
  intros Hb Hp Hacc base sd. split.
  - intros r bs Hr Hok Hbody (bundle & subs & sub & Hin & Hs & Hsub & Hst & Hcd).
    assert (Hv : exists s, bundles_verdict (kb_bundles W base (accountId account)) = Some s).
    { unfold bundles_verdict. rewrite Hr, Hok, Hbody.
      eapply find_active_subscription_some; eauto.
      unfold active_not_cancelled. rewrite Hst, Hcd. reflexivity. }
    destruct Hv as [s Hv].
    assert (Hrun : run (handleCreateSubscription env url_origin W (Some u) (Some b) reqUrl now)
                   = (inr (err "ALREADY_SUBSCRIBED" "Already subscribed to a non-cancellable plan" 409),
                      app tr1 [CKbBundles base (accountId account)])).
    { rewrite (handleCreateSubscription_steps env url_origin W u b reqUrl now Hb Hp), Hacc.
      rewrite checkExistingSubscription_spec. fold base. rewrite Hv. reflexivity. }
    split; [exact Hrun|]. rewrite Hrun. cbn [snd].
    apply forallb_forall. intros c Hc. apply in_app_or in Hc. destruct Hc as [Hc|[<-|[]]].
    + rewrite (getOrCreateKillBillAccount_trace env W _ _ _ _ Hacc c Hc). reflexivity.
    + reflexivity.
  - intros r bs Hr Hok Hbody Hall.
    assert (Hv : bundles_verdict (kb_bundles W base (accountId account)) = None).
    { unfold bundles_verdict. rewrite Hr, Hok, Hbody.
      apply find_active_subscription_none. intros bundle subs sub Hin Hs Hsub.
      unfold active_not_cancelled.
      destruct (Hall bundle subs sub Hin Hs Hsub) as [Hst|(d & Hcd & Hd)].
      - apply String.eqb_neq in Hst. rewrite Hst. reflexivity.
      - rewrite Hcd. unfold truthy_str. destruct d; [congruence|].
        rewrite andb_false_r. reflexivity. }
    pose proof (handleCreateSubscription_no_conflict env url_origin W u b reqUrl now account tr1
                  Hb Hp Hacc Hv) as Hrun.
    cbv zeta in Hrun. fold base sd in Hrun.
    rewrite Hrun. split; [|split].
    + destruct (kb_create_subscription W base sd) as [rc|]; [destruct (ok rc)|];
      cbn [snd]; apply in_or_app; right; right; left; reflexivity.
    + intros rc Hrc Hokc. rewrite Hrc, Hokc. reflexivity.
    + intros [Hn|(rc & Hrc & Hokc)].
      * rewrite Hn. reflexivity.
      * rewrite Hrc, Hokc. reflexivity.
Qed.

Lemma checkExistingSubscription_absorb env W :
  checkExistingSubscription env (absorb_bundle_failures W) = checkExistingSubscription env W.
Proof.
  extensionality a. extensionality tr.
  rewrite !checkExistingSubscription_spec. f_equal. f_equal.
  unfold bundles_verdict. cbn [kb_bundles absorb_bundle_failures].
  destruct (kb_bundles W (killbill_base env) a) as [r|]; [|reflexivity].
  destruct (ok r) eqn:Hok; [rewrite Hok; reflexivity|reflexivity].
Qed.

(** C7. For [POST /subscriptions], a failure of the bundles fetch
    (rejected fetch, or an answer with a non-2xx status) makes
    [checkExistingSubscription] return [null] (no existing subscription)
    without raising; the handler behaves on every input exactly as when the
    bundles endpoint answers a successful empty list; and, with a signed-in
    user, a truthy [planId] and a billing account, the handler then issues
    the creation call instead of returning an error. *)
Theorem subscription_check_failure_nonfatal env url_origin W :
  (forall a tr,
     (kb_bundles W (killbill_base env) a = None
      \/ exists r, kb_bundles W (killbill_base env) a = Some r /\ ok r = false) ->
     checkExistingSubscription env W a tr = (inr None, app tr [CKbBundles (killbill_base env) a]))
  /\
  (forall user reqBody reqUrl now tr,
     handleCreateSubscription env url_origin W user reqBody reqUrl now tr
     = handleCreateSubscription env url_origin (absorb_bundle_failures W) user reqBody reqUrl now tr)
  /\
  (forall u b reqUrl now account tr1,
     b <> JNull -> truthy (get_prop b "planId") = true ->
     getOrCreateKillBillAccount env W (user_id u) (str_of (user_email u)) [] = (inr account, tr1) ->
     (kb_bundles W (killbill_base env) (accountId account) = None
      \/ exists r, kb_bundles W (killbill_base env) (accountId account) = Some r /\ ok r = false) ->
     In (CKbCreateSubscription (killbill_base env)
           (mkSubscriptionData (accountId account)
              ("sub-" ++ accountId account ++ "-" ++ N_to_decimal now) (get_prop b "planId")))
        (snd (run (handleCreateSubscription env url_origin W (Some u) (Some b) reqUrl now)))).
Proof.
  assert (Hfail : forall a,
     (kb_bundles W (killbill_base env) a = None
      \/ exists r, kb_bundles W (killbill_base env) a = Some r /\ ok r = false) ->
     bundles_verdict (kb_bundles W (killbill_base env) a) = None).
  { intros a [Hn|(r & Hr & Hok)]; unfold bundles_verdict.
    - rewrite Hn. reflexivity.
    - rewrite Hr, Hok. reflexivity. }
  split; [|split].
  - intros a tr H. rewrite checkExistingSubscription_spec, (Hfail a H). reflexivity.
  - intros user reqBody reqUrl now tr.
    unfold handleCreateSubscription at 2. rewrite checkExistingSubscription_absorb.
    reflexivity.
  - intros u b reqUrl now account tr1 Hb Hp Hacc H.
    pose proof (handleCreateSubscription_no_conflict env url_origin W u b reqUrl now account tr1
                  Hb Hp Hacc (Hfail _ H)) as Hrun.
    cbv zeta in Hrun. rewrite Hrun.
    destruct (kb_create_subscription W _ _) as [rc|]; [destruct (ok rc)|];
      cbn [snd]; apply in_or_app; right; right; left; reflexivity.
Qed.

(** ** Identity-provider error bodies *)

(** C2 (amended). For exchange-token, logout and me, when the identity
    provider answers with a non-2xx status and a JSON object [d], the
    reply is the error body
    [{code: d.error_code || "SUPABASE_ERROR",
      message: d.error_description || d.msg || "Error from Supabase"}]
    (JavaScript [||]: a falsy field such as [""] falls through to the next
    one) with status [d.code || response.status || 500]; the required
    inputs are present, the base URL is valid and the API key is set. *)
Theorem supabase_error_fallbacks env valid_url W reqUrl
    (Hbase : valid_url (env_or env "AUTH_BASE_URL" reqUrl) = true)
    (Hkey : truthy_str (env "AUTH_SUPABASE_ANON_KEY") = true) :
  let base := env_or env "AUTH_BASE_URL" reqUrl in
  let key := str_of (env "AUTH_SUPABASE_ANON_KEY") in
  let expected (fs : list (string * jval)) (r : Resp jval) :=
    RJson (BError (js_or (obj_lookup fs "error_code") (Some (JStr "SUPABASE_ERROR")))
                  (js_or (obj_lookup fs "error_description")
                         (js_or (obj_lookup fs "msg") (Some (JStr "Error from Supabase")))))
          (js_or (obj_lookup fs "code") (js_or (Some (JNum (status r))) (Some (JNum 500))))
          None in
  (forall bfs r fs,
     truthy (obj_lookup bfs "auth_code") = true ->
     truthy (obj_lookup bfs "code_verifier") = true ->
     sb_token W base "pkce" [("auth_code", obj_lookup bfs "auth_code");
                             ("code_verifier", obj_lookup bfs "code_verifier")] key = Some r ->
     ok r = false -> body r = Some (JObj fs) ->
     reply_of (run (handleExchangeToken env valid_url W (Some (JObj bfs)) reqUrl))
     = Some (expected fs r))
  /\
  (forall auth r fs,
     auth <> "" -> sb_logout W base auth key = Some r ->
     ok r = false -> body r = Some (JObj fs) ->
     reply_of (run (handleLogout env valid_url W (Some auth) reqUrl)) = Some (expected fs r))
  /\
  (forall auth r fs,
     auth <> "" -> sb_user W base auth key = Some r ->
     ok r = false -> body r = Some (JObj fs) ->
     reply_of (run (handleMe env valid_url W (Some auth) reqUrl)) = Some (expected fs r)).
Proof.
  cbv zeta. split; [|split].
  - intros bfs r fs Hac Hcv Hr Hok Hbody.
    unfold run, handleExchangeToken, parse_body, check_base, json, supabase_error_reply,
      js_get, fetch, try_catch, bind, ret, throw.
    cbn [get_prop]. rewrite Hac, Hcv. cbn [negb].
    rewrite Hbase, Hkey. cbn [negb].
    rewrite Hr, Hbody, Hok. reflexivity.
  - intros auth r fs Ha Hr Hok Hbody.
    unfold run, handleLogout, check_base, json, supabase_error_reply,
      js_get, fetch, try_catch, bind, ret, throw.
    rewrite (truthy_str_some auth Ha). cbn [negb str_of get_prop].
    rewrite Hbase, Hkey. cbn [negb].
    rewrite Hr, Hok. cbn [negb]. rewrite Hbody. reflexivity.
  - intros auth r fs Ha Hr Hok Hbody.
    unfold run, handleMe, check_base, json, supabase_error_reply,
      js_get, fetch, try_catch, bind, ret, throw.
    rewrite (truthy_str_some auth Ha). cbn [negb str_of get_prop].
    rewrite Hbase, Hkey. cbn [negb].
    rewrite Hr, Hbody, Hok. reflexivity.
Qed.

(* ================================================================== *)
(** * The properties on sample inputs *)

Lemma missing_required_fields_rejected_witness :
  run (handleAuthorize env_fx valid_url_fx world_plain None (Some "challenge") req_fx)
  = (inr (err "MISSING_REDIRECT_TO" "redirect_to parameter is required" 400), []) /\
  run (handleExchangeToken env_fx valid_url_fx world_plain
         (Some (JObj [("auth_code", JStr "code-1"); ("code_verifier", JStr "")])) req_fx)
  = (inr (err "MISSING_CODE_VERIFIER" "code_verifier is required" 400), []) /\
  run (handleCreateSubscription env_fx url_origin_fx world_plain (Some user_fx) (Some (JObj []))
         req_fx 0)
  = (inr (err "MISSING_PLAN_ID" "planId is required" 400), []) /\
  run (handleMe env_fx valid_url_fx world_plain None req_fx)
  = (inr (err "MISSING_AUTHORIZATION" "Authorization header is required" 401), []).
Proof.
  destruct (missing_required_fields_rejected env_fx valid_url_fx url_origin_fx world_plain req_fx)
    as (H1 & H2 & H3 & H4 & H5 & H6 & H7 & H8).
  split; [apply H1; reflexivity|].
  split; [apply H4; reflexivity|].
  split; [apply H6; reflexivity|].
  apply H8; reflexivity.
Defined.

Lemma authorize_translates_downstream_response_witness :
  "https://app.example.com/callback" <> "" /\ "challenge" <> "" /\
  valid_url_fx "https://app.example.com/callback" = true /\
  valid_url_fx (env_or env_fx "AUTH_BASE_URL" req_fx) = true /\
  sb_authorize world_plain (env_or env_fx "AUTH_BASE_URL" req_fx)
    "https://app.example.com/callback" "challenge"
  = Some (mkResp 302 (Some "https://accounts.example.com/o/oauth2/auth") None) /\
  run (handleAuthorize env_fx valid_url_fx world_plain
         (Some "https://app.example.com/callback") (Some "challenge") req_fx)
  = (inr (RRedirect "https://accounts.example.com/o/oauth2/auth" 302),
     [CSbAuthorize "https://auth.example.com" "https://app.example.com/callback" "challenge"]).
Proof.
  split; [discriminate|]. split; [discriminate|].
  split; [reflexivity|]. split; [reflexivity|]. split; [reflexivity|].
  apply (proj1 (authorize_translates_downstream_response env_fx valid_url_fx world_plain
                  "https://app.example.com/callback" "challenge" req_fx
                  (mkResp 302 (Some "https://accounts.example.com/o/oauth2/auth") None)
                  ltac:(discriminate) ltac:(discriminate) eq_refl eq_refl eq_refl)
               "https://accounts.example.com/o/oauth2/auth");
    [reflexivity | reflexivity | discriminate].
Defined.

Lemma catalog_transformer_filters_plans_witness :
  kb_catalog world_plain (catalog_url env_fx)
  = Some (mkResp 200 None (Some ([mkKillBillCatalog [] []] ++ [catalog_fx])%list)) /\
  run (fetchKillBillPlans env_fx world_plain)
  = (inr plans_fx, [CKbCatalog "https://billing.example.com/1.0/kb/catalog"]).
Proof.
  split; [reflexivity|].
  apply (proj1 (catalog_transformer_filters_plans env_fx world_plain
                  (mkResp 200 None (Some ([mkKillBillCatalog [] []] ++ [catalog_fx])%list))
                  [mkKillBillCatalog [] []] catalog_fx eq_refl eq_refl eq_refl)).
Defined.

Lemma plans_enterprise_contact_invariant_witness :
  run (handlePlans env_fx world_plain None)
  = (inr (RJson (BPlans plans_fx) (Some (JNum 200)) None),
     [CKbCatalog "https://billing.example.com/1.0/kb/catalog"]) /\
  (forall p, In p plans_fx ->
    (plan_selectable p = true <-> plan_tier p <> TierStr "enterprise") /\
    (plan_contactUs p <> None <-> plan_tier p = TierStr "enterprise") /\
    (plan_tier p = TierStr "enterprise" -> plan_contactUs p = Some (getEnterpriseContactConfig env_fx))).
Proof.
  assert (Hrun : run (handlePlans env_fx world_plain None)
                 = (inr (RJson (BPlans plans_fx) (Some (JNum 200)) None),
                    [CKbCatalog "https://billing.example.com/1.0/kb/catalog"]))
    by (vm_compute; reflexivity).
  split; [exact Hrun|].
  exact (plans_enterprise_contact_invariant env_fx world_plain None plans_fx _ _ _ Hrun).
Defined.

Lemma plans_catalog_outcomes_witness :
  (truthy_str None = false \/ None = Some "month" \/ None = Some "year") /\
  run (handlePlans env_fx (world_fx [] None None None) None)
  = (inr (err "KILLBILL_UNAVAILABLE" "Kill Bill service is currently unavailable" 503),
     [CKbCatalog "https://billing.example.com/1.0/kb/catalog"]).
Proof.
  split; [left; reflexivity|].
  apply (proj1 (proj2 (plans_catalog_outcomes env_fx (world_fx [] None None None) None
                         (or_introl eq_refl)))
               (mkResp 200 None (Some []))); reflexivity.
Defined.

Lemma plans_interval_filtering_witness :
  run (handlePlans env_fx world_plain (Some "weekly"))
  = (inr (err "INVALID_INTERVAL" "Interval must be 'month' or 'year'" 400), []) /\
  run (handlePlans env_fx world_plain (Some "month"))
  = (inr (plans_response (filter (fun p => includes (toLowerCase (plan_id p)) "monthly") plans_fx)),
     [CKbCatalog "https://billing.example.com/1.0/kb/catalog"]).
Proof.
  destruct (plans_interval_filtering env_fx world_plain) as (H1 & H2 & H3 & H4).
  split.
  - apply H1; discriminate.
  - apply H3. vm_compute. reflexivity.
Defined.

Lemma subscription_unparsable_body_internal_error_witness :
  run (handleCreateSubscription env_fx url_origin_fx world_plain (Some user_fx) None req_fx 0)
  = (inr (err "INTERNAL_ERROR" "Failed to create subscription" 500), []) /\
  run (handleCreateSubscription env_fx url_origin_fx world_plain (Some user_fx)
         (Some (JObj [("planId", JStr "")])) req_fx 0)
  = (inr (err "MISSING_PLAN_ID" "planId is required" 400), []) /\
  exists u b, Some user_fx = Some u /\ Some (JObj [("planId", JStr "")]) = Some b /\ b <> JNull
              /\ truthy (get_prop b "planId") = false /\ @nil Call = [].
Proof.
  destruct (subscription_unparsable_body_internal_error env_fx url_origin_fx world_plain)
    as [H1 H2].
  split; [apply H1|].
  assert (H : run (handleCreateSubscription env_fx url_origin_fx world_plain (Some user_fx)
                     (Some (JObj [("planId", JStr "")])) req_fx 0)
              = (inr (err "MISSING_PLAN_ID" "planId is required" 400), []))
    by (vm_compute; reflexivity).
  split; [exact H|].
  exact (H2 _ _ _ _ _ H).
Defined.

Lemma subscription_conflict_check_witness :
  order_fx <> JNull /\ truthy (get_prop order_fx "planId") = true /\
  getOrCreateKillBillAccount env_fx (world_fx [] (bundles_fx [sub_active]) created_fx None)
    "user-1" "ana@example.com" []
  = (inr account_fx, [CKbAccountByKey "https://billing.example.com" "user-1"]) /\
  run (handleCreateSubscription env_fx url_origin_fx
         (world_fx [] (bundles_fx [sub_active]) created_fx None)
         (Some user_fx) (Some order_fx) req_fx 1700000000000)
  = (inr (err "ALREADY_SUBSCRIBED" "Already subscribed to a non-cancellable plan" 409),
     [CKbAccountByKey "https://billing.example.com" "user-1";
      CKbBundles "https://billing.example.com" "acc-1"]) /\
  reply_of (run (handleCreateSubscription env_fx url_origin_fx
                   (world_fx [] (bundles_fx [sub_cancelled]) created_fx None)
                   (Some user_fx) (Some order_fx) req_fx 1700000000000))
  = Some (RJson BNull (Some (JNum 201)) (Some "https://api.example.com/subscriptions/sub-42")).
Proof.
  assert (Hacc : forall bundles,
             getOrCreateKillBillAccount env_fx (world_fx [] bundles created_fx None)
               "user-1" "ana@example.com" []
             = (inr account_fx, [CKbAccountByKey "https://billing.example.com" "user-1"]))
    by (intros; reflexivity).
  split; [discriminate|]. split; [reflexivity|]. split; [apply Hacc|]. split.
  - destruct (subscription_conflict_check env_fx url_origin_fx
                (world_fx [] (bundles_fx [sub_active]) created_fx None)
                user_fx order_fx req_fx 1700000000000 account_fx _
                ltac:(discriminate) eq_refl (Hacc _)) as [HA _].
    apply (HA _ _ eq_refl eq_refl eq_refl).
    exists (mkKillBillBundle (Some [sub_active])), [sub_active], sub_active.
    split; [left; reflexivity|]. split; [reflexivity|]. split; [left; reflexivity|].
    split; reflexivity.
  - destruct (subscription_conflict_check env_fx url_origin_fx
                (world_fx [] (bundles_fx [sub_cancelled]) created_fx None)
                user_fx order_fx req_fx 1700000000000 account_fx _
                ltac:(discriminate) eq_refl (Hacc _)) as [_ HB].
    destruct (HB _ _ eq_refl eq_refl eq_refl) as (_ & H201 & _).
    + intros bundle subs sub [<-|[]] Hs Hsub. injection Hs as <-.
      destruct Hsub as [<-|[]]. left. discriminate.
    + apply (H201 _ eq_refl eq_refl).
Defined.

Lemma subscription_check_failure_nonfatal_witness :
  kb_bundles (world_fx [] None created_fx None) "https://billing.example.com" "acc-1" = None /\
  checkExistingSubscription env_fx (world_fx [] None created_fx None) "acc-1" []
  = (inr None, [CKbBundles "https://billing.example.com" "acc-1"]) /\
  In (CKbCreateSubscription "https://billing.example.com"
        (mkSubscriptionData "acc-1" "sub-acc-1-1700000000000" (Some (JStr "basic-monthly"))))
     (snd (run (handleCreateSubscription env_fx url_origin_fx
                  (world_fx [] (Some (mkResp 503 None None)) created_fx None)
                  (Some user_fx) (Some order_fx) req_fx 1700000000000))).
Proof.
  split; [reflexivity|].
  destruct (subscription_check_failure_nonfatal env_fx url_origin_fx
              (world_fx [] None created_fx None)) as [H1 _].
  split; [apply (H1 "acc-1" []); left; reflexivity|].
  destruct (subscription_check_failure_nonfatal env_fx url_origin_fx
              (world_fx [] (Some (mkResp 503 None None)) created_fx None)) as (_ & _ & H3).
  apply (H3 user_fx order_fx req_fx 1700000000000%N account_fx
            [CKbAccountByKey "https://billing.example.com" "user-1"]).
  - discriminate.
  - reflexivity.
  - reflexivity.
  - right. exists (mkResp 503 None None). split; reflexivity.
Defined.

Lemma supabase_error_fallbacks_witness :
  valid_url_fx (env_or env_fx "AUTH_BASE_URL" req_fx) = true /\
  truthy_str (env_fx "AUTH_SUPABASE_ANON_KEY") = true /\
  reply_of (run (handleExchangeToken env_fx valid_url_fx
                   (world_fx [] None None
                      (token_error_fx [("error_code", JStr "bad_code_verifier");
                                       ("msg", JStr "code challenge does not match")]))
                   (Some (JObj [("auth_code", JStr "code-1"); ("code_verifier", JStr "v-1")]))
                   req_fx))
  = Some (RJson (BError (Some (JStr "bad_code_verifier"))
                        (Some (JStr "code challenge does not match")))
                (Some (JNum 400)) None).
Proof.
  split; [reflexivity|]. split; [reflexivity|].
  pose proof (supabase_error_fallbacks env_fx valid_url_fx
                (world_fx [] None None
                   (token_error_fx [("error_code", JStr "bad_code_verifier");
                                    ("msg", JStr "code challenge does not match")]))
                req_fx eq_refl eq_refl) as T.
  cbv zeta in T. destruct T as [TE _].
  rewrite (TE [("auth_code", JStr "code-1"); ("code_verifier", JStr "v-1")]
              (mkResp 400 None (Some (JObj [("error_code", JStr "bad_code_verifier");
                                            ("msg", JStr "code challenge does not match")])))
              [("error_code", JStr "bad_code_verifier"); ("msg", JStr "code challenge does not match")]
              eq_refl eq_refl eq_refl eq_refl eq_refl).
  reflexivity.
Defined.

(* ================================================================== *)
(** * Counterexamples to the specification as worded *)

(** C1: the only subscription of the account is ["ACTIVE"] with its
    [cancelledDate] set (not [null]) to the empty string: the handler does
    not proceed to creation; it answers 409 [ALREADY_SUBSCRIBED], not 201,
    and issues no creation call. *)
Lemma subscription_conflict_check_counterexample :
  sub_state sub_empty_date = "ACTIVE" /\ sub_cancelledDate sub_empty_date <> None /\
  run (handleCreateSubscription env_fx url_origin_fx
         (world_fx [] (bundles_fx [sub_empty_date]) created_fx None)
         (Some user_fx) (Some order_fx) req_fx 1700000000000)
  = (inr (err "ALREADY_SUBSCRIBED" "Already subscribed to a non-cancellable plan" 409),
     [CKbAccountByKey "https://billing.example.com" "user-1";
      CKbBundles "https://billing.example.com" "acc-1"]) /\
  (forall loc,
     reply_of (run (handleCreateSubscription env_fx url_origin_fx
                      (world_fx [] (bundles_fx [sub_empty_date]) created_fx None)
                      (Some user_fx) (Some order_fx) req_fx 1700000000000))
     <> Some (RJson BNull (Some (JNum 201)) loc)).
Proof.
  assert (H : run (handleCreateSubscription env_fx url_origin_fx
                     (world_fx [] (bundles_fx [sub_empty_date]) created_fx None)
                     (Some user_fx) (Some order_fx) req_fx 1700000000000)
              = (inr (err "ALREADY_SUBSCRIBED" "Already subscribed to a non-cancellable plan" 409),
                 [CKbAccountByKey "https://billing.example.com" "user-1";
                  CKbBundles "https://billing.example.com" "acc-1"]))
    by (vm_compute; reflexivity).
  split; [reflexivity|]. split; [discriminate|]. split; [exact H|].
  intros loc. unfold reply_of. rewrite H. discriminate.
Qed.

(** C5: the identity provider answers 302 with a [Location] header that
    is present but empty: the handler answers 500
    [NO_REDIRECT_LOCATION], not a 302 redirect to that location. *)
Lemma authorize_translates_downstream_response_counterexample :
  location (mkResp (A := unit) 302 (Some "") None) = Some "" /\
  run (handleAuthorize env_fx valid_url_fx world_empty_location
         (Some "https://app.example.com/callback") (Some "challenge") req_fx)
  = (inr (err "NO_REDIRECT_LOCATION" "No redirect location found" 500),
     [CSbAuthorize "https://auth.example.com" "https://app.example.com/callback" "challenge"]) /\
  run (handleAuthorize env_fx valid_url_fx world_empty_location
         (Some "https://app.example.com/callback") (Some "challenge") req_fx)
  <> (inr (RRedirect "" 302),
      [CSbAuthorize "https://auth.example.com" "https://app.example.com/callback" "challenge"]).
Proof.
  assert (H : run (handleAuthorize env_fx valid_url_fx world_empty_location
                     (Some "https://app.example.com/callback") (Some "challenge") req_fx)
              = (inr (err "NO_REDIRECT_LOCATION" "No redirect location found" 500),
                 [CSbAuthorize "https://auth.example.com" "https://app.example.com/callback"
                    "challenge"]))
    by (vm_compute; reflexivity).
  split; [reflexivity|]. split; [exact H|]. rewrite H. discriminate.
Qed.

(** C2: exchange-token with [{"error_code": ""}] answers the code
    ["SUPABASE_ERROR"] where [??] keeps [""]; refresh-token with both
    [error_description] and [msg] answers [msg] where the chain of the
    specification gives [error_description]. *)
Lemma supabase_error_fallbacks_counterexample :
  reply_of (run (handleExchangeToken env_fx valid_url_fx
                   (world_fx [] None None (token_error_fx [("error_code", JStr "")]))
                   (Some (JObj [("auth_code", JStr "code-1"); ("code_verifier", JStr "v-1")]))
                   req_fx))
  = Some (RJson (BError (Some (JStr "SUPABASE_ERROR")) (Some (JStr "Error from Supabase")))
                (Some (JNum 400)) None) /\
  spec_error_body [("error_code", JStr "")]
  = BError (Some (JStr "")) (Some (JStr "Error from Supabase")) /\
  reply_of (run (handleRefreshToken env_fx valid_url_fx
                   (world_fx [] None None
                      (token_error_fx [("error_description", JStr "Token has expired");
                                       ("msg", JStr "Invalid Refresh Token")]))
                   (Some (JObj [("refresh_token", JStr "rt-1")])) req_fx))
  = Some (RJson (BError (Some (JStr "SUPABASE_ERROR")) (Some (JStr "Invalid Refresh Token")))
                (Some (JNum 500)) None) /\
  spec_error_body [("error_description", JStr "Token has expired");
                   ("msg", JStr "Invalid Refresh Token")]
  = BError (Some (JStr "SUPABASE_ERROR")) (Some (JStr "Token has expired")).
Proof.
  split; [vm_compute; reflexivity|].
  split; [reflexivity|].
  split; [vm_compute; reflexivity|].
  reflexivity.
Qed.

(** C3: the catalog fetch succeeds with an empty array of catalog
    versions; the reply is 503 [KILLBILL_UNAVAILABLE], not 404. *)
Lemma plans_catalog_outcomes_counterexample :
  kb_catalog (world_fx [] None None None) (catalog_url env_fx) = Some (mkResp 200 None (Some [])) /\
  reply_of (run (handlePlans env_fx (world_fx [] None None None) None))
  = Some (err "KILLBILL_UNAVAILABLE" "Kill Bill service is currently unavailable" 503) /\
  reply_of (run (handlePlans env_fx (world_fx [] None None None) None))
  <> Some (err "NO_PLANS_AVAILABLE" "No plans available for the specified interval" 404).
Proof.
  split; [reflexivity|]. split; [vm_compute; reflexivity|].
  vm_compute. discriminate.
Qed.

(** C9: [interval=] (empty) is not rejected with 400 but fetches the
    catalog; with [interval=year] the plan ["Enterprise-ANNUAL"], whose id
    does not contain ["annual"], is kept. *)
Lemma plans_interval_filtering_counterexample :
  snd (run (handlePlans env_fx world_plain (Some "")))
  = [CKbCatalog "https://billing.example.com/1.0/kb/catalog"] /\
  reply_of (run (handlePlans env_fx world_plain (Some "")))
  = Some (RJson (BPlans plans_fx) (Some (JNum 200)) None) /\
  includes "Enterprise-ANNUAL" "annual" = false /\
  (exists ps, reply_of (run (handlePlans env_fx world_plain (Some "year")))
              = Some (RJson (BPlans ps) (Some (JNum 200)) None)
              /\ In "Enterprise-ANNUAL" (map plan_id ps)).
Proof.
  split; [vm_compute; reflexivity|].
  split; [vm_compute; reflexivity|].
  split; [vm_compute; reflexivity|].
  eexists. split; [vm_compute; reflexivity|].
  vm_compute. right. left. reflexivity.
Qed.

(* ================================================================== *)
(** * Further properties of the handlers *)

(** ** Identity-provider wrappers *)

Ltac unfold_auth :=
  unfold run, handleAuthorize, handleExchangeToken, handleRefreshToken, handleLogout, handleMe,
    parse_body, check_base, json, supabase_error_reply, js_get, fetch, try_catch, bind, ret, throw;
  cbn [get_prop negb str_of andb orb app].

(** Without an API key (unset or empty) the four token endpoints answer
    500 [MISSING_API_KEY] once their inputs are present and the base URL
    is valid, without calling the identity provider. *)
Theorem auth_missing_api_key_no_call env valid_url W reqUrl :
  (valid_url (env_or env "AUTH_BASE_URL" reqUrl) = true ->
   truthy_str (env "AUTH_SUPABASE_ANON_KEY") = false ->
   (forall bfs, truthy (obj_lookup bfs "auth_code") = true ->
      truthy (obj_lookup bfs "code_verifier") = true ->
      run (handleExchangeToken env valid_url W (Some (JObj bfs)) reqUrl)
      = (inr (err "MISSING_API_KEY" "Supabase API key not configured" 500), [])) /\
   (forall auth, truthy_str auth = true ->
      run (handleLogout env valid_url W auth reqUrl)
      = (inr (err "MISSING_API_KEY" "Supabase API key not configured" 500), [])) /\
   (forall auth, truthy_str auth = true ->
      run (handleMe env valid_url W auth reqUrl)
      = (inr (err "MISSING_API_KEY" "Supabase API key not configured" 500), []))) /\
  (valid_url (env_or env "SUPABASE_URL" reqUrl) = true ->
   truthy_str (env "SUPABASE_ANON_KEY") = false ->
   forall bfs, truthy (obj_lookup bfs "refresh_token") = true ->
      run (handleRefreshToken env valid_url W (Some (JObj bfs)) reqUrl)
      = (inr (err "MISSING_API_KEY" "Supabase API key not configured" 500), [])).
Proof.
  split.
  - intros Hb Hk. split; [|split].
    + intros bfs H1 H2. unfold_auth. rewrite H1, H2. cbn [negb]. rewrite Hb, Hk. reflexivity.
    + intros auth Ha. unfold_auth. rewrite Ha. cbn [negb]. rewrite Hb, Hk. reflexivity.
    + intros auth Ha. unfold_auth. rewrite Ha. cbn [negb]. rewrite Hb, Hk. reflexivity.
  - intros Hb Hk bfs H1. unfold_auth. rewrite H1. cbn [negb]. rewrite Hb, Hk. reflexivity.
Qed.

(** An invalid identity-provider base URL ([new URL] throws) makes every
    identity-provider endpoint answer 500 [INTERNAL_ERROR] without any
    downstream call, whether or not an API key is configured. *)
Theorem auth_invalid_base_url_internal_error env valid_url W reqUrl :
  (valid_url (env_or env "AUTH_BASE_URL" reqUrl) = false ->
   (forall rt cc, rt <> "" -> cc <> "" -> valid_url rt = true ->
      run (handleAuthorize env valid_url W (Some rt) (Some cc) reqUrl) = (inr internal_error, [])) /\
   (forall bfs, truthy (obj_lookup bfs "auth_code") = true ->
      truthy (obj_lookup bfs "code_verifier") = true ->
      run (handleExchangeToken env valid_url W (Some (JObj bfs)) reqUrl) = (inr internal_error, [])) /\
   (forall auth, truthy_str auth = true ->
      run (handleLogout env valid_url W auth reqUrl) = (inr internal_error, [])) /\
   (forall auth, truthy_str auth = true ->
      run (handleMe env valid_url W auth reqUrl) = (inr internal_error, []))) /\
  (valid_url (env_or env "SUPABASE_URL" reqUrl) = false ->
   forall bfs, truthy (obj_lookup bfs "refresh_token") = true ->
      run (handleRefreshToken env valid_url W (Some (JObj bfs)) reqUrl) = (inr internal_error, [])).
Proof.
  split.
  - intros Hb. split; [|split; [|split]].
    + intros rt cc Hrt Hcc Hv. unfold_auth.
      rewrite (truthy_str_some rt Hrt), (truthy_str_some cc Hcc). cbn [negb str_of].
      rewrite Hv. cbn [negb]. rewrite Hb. reflexivity.
    + intros bfs H1 H2. unfold_auth. rewrite H1, H2. cbn [negb]. rewrite Hb. reflexivity.
    + intros auth Ha. unfold_auth. rewrite Ha. cbn [negb]. rewrite Hb. reflexivity.
    + intros auth Ha. unfold_auth. rewrite Ha. cbn [negb]. rewrite Hb. reflexivity.
  - intros Hb bfs H1. unfold_auth. rewrite H1. cbn [negb]. rewrite Hb. reflexivity.
Qed.

(** When the request to the identity provider fails at the network level,
    each identity-provider endpoint answers 500 [INTERNAL_ERROR] after
    that single call. *)
Theorem auth_network_failure_internal_error env valid_url W reqUrl :
  let base := env_or env "AUTH_BASE_URL" reqUrl in
  let key := str_of (env "AUTH_SUPABASE_ANON_KEY") in
  valid_url base = true ->
  (forall rt cc, rt <> "" -> cc <> "" -> valid_url rt = true ->
     sb_authorize W base rt cc = None ->
     run (handleAuthorize env valid_url W (Some rt) (Some cc) reqUrl)
     = (inr internal_error, [CSbAuthorize base rt cc])) /\
  (truthy_str (env "AUTH_SUPABASE_ANON_KEY") = true ->
   (forall bfs,
      truthy (obj_lookup bfs "auth_code") = true ->
      truthy (obj_lookup bfs "code_verifier") = true ->
      let payload := [("auth_code", obj_lookup bfs "auth_code");
                      ("code_verifier", obj_lookup bfs "code_verifier")] in
      sb_token W base "pkce" payload key = None ->
      run (handleExchangeToken env valid_url W (Some (JObj bfs)) reqUrl)
      = (inr internal_error, [CSbToken base "pkce" payload key])) /\
   (forall auth, auth <> "" -> sb_logout W base auth key = None ->
      run (handleLogout env valid_url W (Some auth) reqUrl)
      = (inr internal_error, [CSbLogout base auth key])) /\
   (forall auth, auth <> "" -> sb_user W base auth key = None ->
      run (handleMe env valid_url W (Some auth) reqUrl)
      = (inr internal_error, [CSbUser base auth key]))).
Proof.
  cbv zeta. intros Hb. split; [|intros Hk; split; [|split]].
  - intros rt cc Hrt Hcc Hv Hr. unfold_auth.
    rewrite (truthy_str_some rt Hrt), (truthy_str_some cc Hcc). cbn [negb str_of].
    rewrite Hv. cbn [negb]. rewrite Hb, Hr. reflexivity.
  - intros bfs H1 H2 Hr. unfold_auth. rewrite H1, H2. cbn [negb].
    rewrite Hb, Hk. cbn [negb]. rewrite Hr. reflexivity.
  - intros auth Ha Hr. unfold_auth. rewrite (truthy_str_some auth Ha). cbn [negb str_of].
    rewrite Hb, Hk. cbn [negb]. rewrite Hr. reflexivity.
  - intros auth Ha Hr. unfold_auth. rewrite (truthy_str_some auth Ha). cbn [negb str_of].
    rewrite Hb, Hk. cbn [negb]. rewrite Hr. reflexivity.
Qed.

(** A 2xx answer of the identity provider is passed through: exchange-token
    and me answer 200 with the provider's JSON value unchanged when it is
    not [null], and logout answers 204 with no body without reading the
    provider's body at all. *)
Theorem auth_success_passthrough env valid_url W reqUrl :
  let base := env_or env "AUTH_BASE_URL" reqUrl in
  let key := str_of (env "AUTH_SUPABASE_ANON_KEY") in
  valid_url base = true -> truthy_str (env "AUTH_SUPABASE_ANON_KEY") = true ->
  (forall bfs r d,
     truthy (obj_lookup bfs "auth_code") = true ->
     truthy (obj_lookup bfs "code_verifier") = true ->
     let payload := [("auth_code", obj_lookup bfs "auth_code");
                     ("code_verifier", obj_lookup bfs "code_verifier")] in
     sb_token W base "pkce" payload key = Some r -> ok r = true -> body r = Some d -> d <> JNull ->
     run (handleExchangeToken env valid_url W (Some (JObj bfs)) reqUrl)
     = (inr (RJson (BData d) (Some (JNum 200)) None), [CSbToken base "pkce" payload key])) /\
  (forall auth r d, auth <> "" -> sb_user W base auth key = Some r -> ok r = true ->
     body r = Some d -> d <> JNull ->
     run (handleMe env valid_url W (Some auth) reqUrl)
     = (inr (RJson (BData d) (Some (JNum 200)) None), [CSbUser base auth key])) /\
  (forall auth r, auth <> "" -> sb_logout W base auth key = Some r -> ok r = true ->
     run (handleLogout env valid_url W (Some auth) reqUrl)
     = (inr (RBodyNull 204), [CSbLogout base auth key])).
Proof.
  cbv zeta. intros Hb Hk. split; [|split].
  - intros bfs r d H1 H2 Hr Hok Hd Hn. unfold_auth. rewrite H1, H2. cbn [negb].
    rewrite Hb, Hk. cbn [negb]. rewrite Hr, Hd, Hok.
    destruct d; [contradiction|reflexivity..].
  - intros auth r d Ha Hr Hok Hd Hn. unfold_auth. rewrite (truthy_str_some auth Ha).
    cbn [negb str_of]. rewrite Hb, Hk. cbn [negb]. rewrite Hr, Hd, Hok.
    destruct d; [contradiction|reflexivity..].
  - intros auth r Ha Hr Hok. unfold_auth. rewrite (truthy_str_some auth Ha).
    cbn [negb str_of]. rewrite Hb, Hk. cbn [negb]. rewrite Hr, Hok. reflexivity.
Qed.

(** An answer of the identity provider whose body is not JSON, or is the
    JSON value [null], is answered 500 [INTERNAL_ERROR] by exchange-token
    and me whatever its status, and by logout when its status is not 2xx:
    the handlers read a property of the parsed value before looking at
    the status. *)
Theorem auth_unusable_body_internal_error env valid_url W reqUrl :
  let base := env_or env "AUTH_BASE_URL" reqUrl in
  let key := str_of (env "AUTH_SUPABASE_ANON_KEY") in
  valid_url base = true -> truthy_str (env "AUTH_SUPABASE_ANON_KEY") = true ->
  (forall bfs r,
     truthy (obj_lookup bfs "auth_code") = true ->
     truthy (obj_lookup bfs "code_verifier") = true ->
     let payload := [("auth_code", obj_lookup bfs "auth_code");
                     ("code_verifier", obj_lookup bfs "code_verifier")] in
     sb_token W base "pkce" payload key = Some r -> (body r = None \/ body r = Some JNull) ->
     run (handleExchangeToken env valid_url W (Some (JObj bfs)) reqUrl)
     = (inr internal_error, [CSbToken base "pkce" payload key])) /\
  (forall auth r, auth <> "" -> sb_user W base auth key = Some r ->
     (body r = None \/ body r = Some JNull) ->
     run (handleMe env valid_url W (Some auth) reqUrl)
     = (inr internal_error, [CSbUser base auth key])) /\
  (forall auth r, auth <> "" -> sb_logout W base auth key = Some r -> ok r = false ->
     (body r = None \/ body r = Some JNull) ->
     run (handleLogout env valid_url W (Some auth) reqUrl)
     = (inr internal_error, [CSbLogout base auth key])).
Proof.
  cbv zeta. intros Hb Hk. split; [|split].
  - intros bfs r H1 H2 Hr Hd. unfold_auth. rewrite H1, H2. cbn [negb].
    rewrite Hb, Hk. cbn [negb]. rewrite Hr. destruct Hd as [Hd|Hd]; rewrite Hd; reflexivity.
  - intros auth r Ha Hr Hd. unfold_auth. rewrite (truthy_str_some auth Ha).
    cbn [negb str_of]. rewrite Hb, Hk. cbn [negb]. rewrite Hr.
    destruct Hd as [Hd|Hd]; rewrite Hd; reflexivity.
  - intros auth r Ha Hr Hok Hd. unfold_auth. rewrite (truthy_str_some auth Ha).
    cbn [negb str_of]. rewrite Hb, Hk. cbn [negb]. rewrite Hr, Hok. cbn [negb].
    destruct Hd as [Hd|Hd]; rewrite Hd; reflexivity.
Qed.

(** refresh-token (handlers/auth/refresh-token.ts) with a refresh token,
    a valid base URL and an API key: a 2xx answer is passed through with
    status 200, whatever its JSON value; a non-2xx answer with a JSON
    object [d] becomes
    [{code: d.error_code || "SUPABASE_ERROR", message: d.msg || "Error from Supabase"}]
    with status [d.code || 500], the status of the answer being ignored. *)
Theorem refresh_token_reply env valid_url W reqUrl bfs r :
  let base := env_or env "SUPABASE_URL" reqUrl in
  let key := str_of (env "SUPABASE_ANON_KEY") in
  let payload := [("refresh_token", obj_lookup bfs "refresh_token")] in
  valid_url base = true -> truthy_str (env "SUPABASE_ANON_KEY") = true ->
  truthy (obj_lookup bfs "refresh_token") = true ->
  sb_token W base "refresh_token" payload key = Some r ->
  (forall d, ok r = true -> body r = Some d ->
     run (handleRefreshToken env valid_url W (Some (JObj bfs)) reqUrl)
     = (inr (RJson (BData d) (Some (JNum 200)) None), [CSbToken base "refresh_token" payload key])) /\
  (forall fs, ok r = false -> body r = Some (JObj fs) ->
     run (handleRefreshToken env valid_url W (Some (JObj bfs)) reqUrl)
     = (inr (RJson (BError (js_or (obj_lookup fs "error_code") (Some (JStr "SUPABASE_ERROR")))
                           (js_or (obj_lookup fs "msg") (Some (JStr "Error from Supabase"))))
                   (js_or (obj_lookup fs "code") (Some (JNum 500))) None),
        [CSbToken base "refresh_token" payload key])).
Proof.
  cbv zeta. intros Hb Hk H1 Hr. split.
  - intros d Hok Hd. unfold_auth. rewrite H1. cbn [negb].
    rewrite Hb, Hk. cbn [negb]. rewrite Hr, Hd, Hok. reflexivity.
  - intros fs Hok Hd. unfold_auth. rewrite H1. cbn [negb].
    rewrite Hb, Hk. cbn [negb]. rewrite Hr, Hd, Hok. reflexivity.
Qed.

(** authorize: a [redirect_to] that is not a valid URL is answered 400
    [INVALID_REDIRECT_TO] without calling the provider; a 2xx answer of
    the provider (not only a 302) with a non-empty Location [L] is a 302
    redirect to [L], and one with no Location answers 500
    [NO_REDIRECT_LOCATION]. *)
Theorem authorize_redirect_handling env valid_url W rt cc reqUrl :
  rt <> "" -> cc <> "" ->
  (valid_url rt = false ->
   run (handleAuthorize env valid_url W (Some rt) (Some cc) reqUrl)
   = (inr (err "INVALID_REDIRECT_TO" "redirect_to must be a valid URL" 400), [])) /\
  (forall r, valid_url rt = true -> valid_url (env_or env "AUTH_BASE_URL" reqUrl) = true ->
   sb_authorize W (env_or env "AUTH_BASE_URL" reqUrl) rt cc = Some r -> ok r = true ->
   (forall L, location r = Some L -> L <> "" ->
      run (handleAuthorize env valid_url W (Some rt) (Some cc) reqUrl)
      = (inr (RRedirect L 302), [CSbAuthorize (env_or env "AUTH_BASE_URL" reqUrl) rt cc])) /\
   (location r = None ->
      run (handleAuthorize env valid_url W (Some rt) (Some cc) reqUrl)
      = (inr (err "NO_REDIRECT_LOCATION" "No redirect location found" 500),
         [CSbAuthorize (env_or env "AUTH_BASE_URL" reqUrl) rt cc]))).
Proof.
  intros Hrt Hcc. split.
  - intros Hv. unfold_auth.
    rewrite (truthy_str_some rt Hrt), (truthy_str_some cc Hcc). cbn [negb str_of].
    rewrite Hv. reflexivity.
  - intros r Hv Hb Hr Hok. unfold_auth.
    rewrite (truthy_str_some rt Hrt), (truthy_str_some cc Hcc). cbn [negb str_of].
    rewrite Hv. cbn [negb]. rewrite Hb, Hr, Hok. cbn [negb andb]. split.
    + intros L Hl HL. rewrite Hl. destruct (String.eqb_spec L ""); [contradiction|reflexivity].
    + intros Hl. rewrite Hl. reflexivity.
Qed.

(** ** Authentication middleware *)

Ltac unfold_mw :=
  unfold run, authMiddleware, getAuthenticatedUser, check_base, json, js_get, fetch,
    try_catch, bind, ret, throw;
  cbn [negb str_of andb orb app].

(** [authMiddleware] rejects without running the rest of the chain: a
    missing or empty Authorization header gives 401
    [MISSING_AUTHORIZATION] with no call; a missing API key, a failed
    user lookup, a non-2xx or non-JSON answer, or a user value without a
    truthy [id] or [email] gives 401 [UNAUTHORIZED]; an invalid base URL
    makes the middleware throw (its URL is built outside the [try]), even
    when no API key is configured. *)
Theorem auth_middleware_rejections env valid_url W reqUrl :
  let base := env_or env "AUTH_BASE_URL" reqUrl in
  let key := str_of (env "AUTH_SUPABASE_ANON_KEY") in
  (forall auth next, truthy_str auth = false ->
     run (authMiddleware env valid_url W auth reqUrl next)
     = (inr (err "MISSING_AUTHORIZATION" "Authorization header is required" 401), [])) /\
  (forall auth next, auth <> "" -> valid_url base = false ->
     run (authMiddleware env valid_url W (Some auth) reqUrl next) = (inl TypeError, [])) /\
  (forall auth next, auth <> "" -> valid_url base = true ->
     truthy_str (env "AUTH_SUPABASE_ANON_KEY") = false ->
     run (authMiddleware env valid_url W (Some auth) reqUrl next)
     = (inr (err "UNAUTHORIZED" "Invalid or expired token" 401), [])) /\
  (forall auth next, auth <> "" -> valid_url base = true ->
     truthy_str (env "AUTH_SUPABASE_ANON_KEY") = true ->
     (sb_user W base auth key = None \/
      exists r, sb_user W base auth key = Some r /\
        (ok r = false \/ body r = None \/
         exists u, body r = Some u /\
           (truthy (get_prop u "id") = false \/ truthy (get_prop u "email") = false))) ->
     run (authMiddleware env valid_url W (Some auth) reqUrl next)
     = (inr (err "UNAUTHORIZED" "Invalid or expired token" 401), [CSbUser base auth key])).
Proof.
  cbv zeta. split; [|split; [|split]].
  - intros auth next Ha. unfold_mw. rewrite Ha. reflexivity.
  - intros auth next Ha Hb. unfold_mw. rewrite (truthy_str_some auth Ha). cbn [negb str_of].
    rewrite Hb. reflexivity.
  - intros auth next Ha Hb Hk. unfold_mw. rewrite (truthy_str_some auth Ha). cbn [negb str_of].
    rewrite Hb, Hk. reflexivity.
  - intros auth next Ha Hb Hk Hfail. unfold_mw. rewrite (truthy_str_some auth Ha).
    cbn [negb str_of]. rewrite Hb, Hk. cbn [negb].
    destruct Hfail as [Hn|(r & Hr & [Hok|[Hd|(u & Hd & Hu)]])].
    + rewrite Hn. reflexivity.
    + rewrite Hr, Hok. reflexivity.
    + rewrite Hr. destruct (ok r); cbn [negb]; [rewrite Hd|]; reflexivity.
    + rewrite Hr. destruct (ok r); cbn [negb]; [|reflexivity]. rewrite Hd.
      destruct u; try reflexivity;
        cbn [get_prop] in Hu |- *;
        destruct Hu as [Hu|Hu]; rewrite Hu;
        rewrite ?orb_true_r; reflexivity.
Qed.

(** When the lookup returns a user value with a truthy [id] and [email],
    [authMiddleware] is exactly one call to the user endpoint followed by
    the rest of the chain run with that user; its reply is the chain's. *)
Theorem auth_middleware_accepts env valid_url W reqUrl auth r u (next : jval -> M Reply) :
  let base := env_or env "AUTH_BASE_URL" reqUrl in
  let key := str_of (env "AUTH_SUPABASE_ANON_KEY") in
  auth <> "" -> valid_url base = true -> truthy_str (env "AUTH_SUPABASE_ANON_KEY") = true ->
  sb_user W base auth key = Some r -> ok r = true -> body r = Some u ->
  truthy (get_prop u "id") = true -> truthy (get_prop u "email") = true ->
  run (authMiddleware env valid_url W (Some auth) reqUrl next) = next u [CSbUser base auth key].
Proof.
  cbv zeta. intros Ha Hb Hk Hr Hok Hd Hid Hem. unfold_mw.
  rewrite (truthy_str_some auth Ha). cbn [negb str_of]. rewrite Hb, Hk. cbn [negb].
  rewrite Hr, Hok. cbn [negb]. rewrite Hd.
  destruct u; cbn [get_prop] in Hid, Hem |- *; try discriminate.
  rewrite Hid, Hem. reflexivity.
Qed.

(** ** Billing accounts and subscriptions *)

Ltac unfold_acct :=
  unfold getOrCreateKillBillAccount, try_catch, bind, fetch, json, ret, throw;
  cbn [negb app].

(** [getOrCreateKillBillAccount] returns an account found by external key
    (the user id) after that single lookup, without creating anything. *)
Theorem getOrCreate_existing_account env W userId email tr r a :
  kb_account_by_key W (killbill_base env) userId = Some r -> ok r = true -> body r = Some a ->
  getOrCreateKillBillAccount env W userId email tr
  = (inr a, app tr [CKbAccountByKey (killbill_base env) userId]).
Proof.
  intros Hr Hok Hd. unfold_acct. rewrite Hr, Hok, Hd. reflexivity.
Qed.

Lemma getOrCreate_lookup_failed env W userId email tr :
  (kb_account_by_key W (killbill_base env) userId = None \/
   exists r, kb_account_by_key W (killbill_base env) userId = Some r /\
             (ok r = false \/ body r = None)) ->
  getOrCreateKillBillAccount env W userId email tr
  = getOrCreateKillBillAccount env
      (mkWorld (kb_catalog W) (fun _ _ => None) (kb_create_account W) (kb_get_account W)
               (kb_bundles W) (kb_create_subscription W) (sb_authorize W) (sb_token W)
               (sb_logout W) (sb_user W))
      userId email tr.
Proof.
  intros H. unfold_acct. cbn [kb_account_by_key kb_create_account kb_get_account].
  destruct H as [Hn|(r & Hr & [Hok|Hd])].
  - rewrite Hn. reflexivity.
  - rewrite Hr, Hok. reflexivity.
  - rewrite Hr. destruct (ok r); [rewrite Hd|]; reflexivity.
Qed.

(** When the lookup by external key fails (network error, non-2xx answer
    or unparsable body), [getOrCreateKillBillAccount] creates an account
    named and addressed by the e-mail, with the user id as external key
    and [KILLBILL_DEFAULT_CURRENCY] (or [""]) as currency, then fetches it
    from the returned Location. A failed creation, or a missing or empty
    Location, raises before the account is fetched; a failed fetch of the
    account raises too. *)
Theorem getOrCreate_creates_account env W userId email tr :
  let base := killbill_base env in
  let data := mkAccountData email email userId (env_or_empty env "KILLBILL_DEFAULT_CURRENCY") in
  (kb_account_by_key W base userId = None \/
   exists r, kb_account_by_key W base userId = Some r /\ (ok r = false \/ body r = None)) ->
  (forall rc L ra a,
     kb_create_account W base data = Some rc -> ok rc = true -> location rc = Some L -> L <> "" ->
     kb_get_account W L = Some ra -> ok ra = true -> body ra = Some a ->
     getOrCreateKillBillAccount env W userId email tr
     = (inr a, app tr [CKbAccountByKey base userId; CKbCreateAccount base data; CKbGetAccount L])) /\
  ((kb_create_account W base data = None \/
    exists rc, kb_create_account W base data = Some rc /\
               (ok rc = false \/ location rc = None \/ location rc = Some "")) ->
   exists e, getOrCreateKillBillAccount env W userId email tr
             = (inl e, app tr [CKbAccountByKey base userId; CKbCreateAccount base data])) /\
  (forall rc L,
     kb_create_account W base data = Some rc -> ok rc = true -> location rc = Some L -> L <> "" ->
     (kb_get_account W L = None \/ exists ra, kb_get_account W L = Some ra /\ ok ra = false) ->
     exists e, getOrCreateKillBillAccount env W userId email tr
               = (inl e, app tr [CKbAccountByKey base userId; CKbCreateAccount base data;
                                 CKbGetAccount L])).
Proof.
  cbv zeta. intros Hl. rewrite (getOrCreate_lookup_failed env W userId email tr Hl).
  unfold_acct. cbn [kb_account_by_key kb_create_account kb_get_account].
  split; [|split].
  - intros rc L ra a Hc Hok HL HLn Hg Hokg Hd.
    rewrite Hc, Hok. cbn [negb]. rewrite HL. cbn [str_of].
    destruct (String.eqb_spec L ""); [contradiction|].
    rewrite Hg, Hokg. cbn [negb]. rewrite Hd. rewrite <- ?app_assoc; reflexivity.
  - intros [Hn|(rc & Hc & [Hok|[HL|HL]])].
    + rewrite Hn. eexists. rewrite <- ?app_assoc; reflexivity.
    + rewrite Hc, Hok. eexists. rewrite <- ?app_assoc; reflexivity.
    + rewrite Hc. destruct (ok rc); cbn [negb]; [rewrite HL|]; eexists; rewrite <- ?app_assoc; reflexivity.
    + rewrite Hc. destruct (ok rc); cbn [negb]; [rewrite HL|]; eexists; rewrite <- ?app_assoc; reflexivity.
  - intros rc L Hc Hok HL HLn Hg.
    rewrite Hc, Hok. cbn [negb]. rewrite HL. cbn [str_of].
    destruct (String.eqb_spec L ""); [contradiction|].
    destruct Hg as [Hn|(ra & Hg & Hokg)].
    + rewrite Hn. eexists. rewrite <- ?app_assoc; reflexivity.
    + rewrite Hg, Hokg. eexists. rewrite <- ?app_assoc; reflexivity.
Qed.

Lemma createKillBillSubscription_trace env W a p now tr :
  snd (createKillBillSubscription env W a p now tr)
  = app tr [CKbCreateSubscription (killbill_base env)
              (mkSubscriptionData a ("sub-" ++ a ++ "-" ++ N_to_decimal now) p)].
Proof.
  unfold createKillBillSubscription, bind, fetch, ret, throw.
  destruct (kb_create_subscription W _ _) as [r|]; [destruct (ok r)|]; reflexivity.
Qed.

(** Without an authenticated user in the context ([getUser] throws),
    [POST /subscriptions] answers 500 [INTERNAL_ERROR] without any
    downstream call, whatever the body. *)
Theorem subscription_without_user_internal_error env url_origin W reqBody reqUrl now :
  run (handleCreateSubscription env url_origin W None reqBody reqUrl now)
  = (inr (err "INTERNAL_ERROR" "Failed to create subscription" 500), []).
Proof. reflexivity. Qed.

(** When the billing account can be neither found nor created,
    [POST /subscriptions] answers 500 [INTERNAL_ERROR] and neither checks
    the existing subscriptions nor creates one: the account calls are the
    only downstream calls. *)
Theorem subscription_account_failure_internal_error env url_origin W u b reqUrl now e tr1 :
  b <> JNull -> truthy (get_prop b "planId") = true ->
  getOrCreateKillBillAccount env W (user_id u) (str_of (user_email u)) [] = (inl e, tr1) ->
  run (handleCreateSubscription env url_origin W (Some u) (Some b) reqUrl now)
  = (inr (err "INTERNAL_ERROR" "Failed to create subscription" 500), tr1)
  /\ (forall c, In c tr1 ->
        match c with
        | CKbAccountByKey _ _ | CKbCreateAccount _ _ | CKbGetAccount _ => True
        | _ => False
        end).
Proof.
  intros Hb Hp Hacc. split.
  - rewrite (handleCreateSubscription_steps env url_origin W u b reqUrl now Hb Hp), Hacc.
    reflexivity.
  - revert Hacc. unfold_acct.
    destruct (kb_account_by_key W _ _) as [r0|];
      [destruct (ok r0); [destruct (body r0)|]|];
    cbn [negb app];
    repeat match goal with
           | |- context [match ?x with Some _ => _ | None => _ end] =>
               lazymatch x with
               | context [match _ with _ => _ end] => fail
               | _ => destruct x
               end
           | |- context [if ?x then _ else _] =>
               lazymatch x with
               | context [match _ with _ => _ end] => fail
               | _ => destruct x
               end
           end;
    cbn [negb app];
    intros H; injection H as _ <-; intros c Hc;
    repeat (destruct Hc as [<-|Hc]; [exact I|]); destruct Hc.
Qed.

Lemma filter_no_create l :
  (forall c, In c l -> is_create_subscription c = false) -> filter is_create_subscription l = [].
Proof.
  induction l as [|c l IH]; intros H; [reflexivity|].
  cbn. rewrite (H c (or_introl eq_refl)). apply IH. intros; apply H; right; assumption.
Qed.

(** Whatever the request and the answers of the billing engine,
    [POST /subscriptions] issues at most one subscription-creation call,
    and such a call is the last call of the request, right after the
    check of the existing subscriptions of the same account. *)
Theorem subscription_single_creation_call env url_origin W user reqBody reqUrl now :
  let tr := snd (run (handleCreateSubscription env url_origin W user reqBody reqUrl now)) in
  (length (filter is_create_subscription tr) <= 1)%nat /\
  (forall base sd, In (CKbCreateSubscription base sd) tr ->
     exists tr1, tr = app tr1 [CKbBundles base (sd_accountId sd); CKbCreateSubscription base sd]
                 /\ filter is_create_subscription tr1 = []).
Proof.
  cbv zeta.
  assert (Hnil : forall tr, tr = [] ->
            (length (filter is_create_subscription tr) <= 1)%nat /\
            (forall base sd, In (CKbCreateSubscription base sd) tr ->
               exists tr1, tr = app tr1 [CKbBundles base (sd_accountId sd);
                                         CKbCreateSubscription base sd]
                           /\ filter is_create_subscription tr1 = []))
    by (intros tr ->; split; [cbn; lia | intros ? ? []]).
  destruct user as [u|]; [|apply Hnil; reflexivity].
  destruct reqBody as [b|]; [|apply Hnil; reflexivity].
  assert (Hb : b = JNull \/ b <> JNull)
    by (destruct b; [left; reflexivity | right; discriminate ..]).
  destruct Hb as [->|Hb]; [apply Hnil; reflexivity|].
  destruct (truthy (get_prop b "planId")) eqn:Hp.
  2:{ apply Hnil.
      assert (Hj : forall tr, js_get (Some b) "planId" tr = (inr (get_prop b "planId"), tr))
        by (destruct b; [congruence|reflexivity..]).
      unfold run, handleCreateSubscription, try_catch, bind, ret, parse_body.
      cbv beta iota delta [ret]. rewrite Hj, Hp. reflexivity. }
  rewrite (handleCreateSubscription_steps env url_origin W u b reqUrl now Hb Hp).
  destruct (getOrCreateKillBillAccount env W _ _ []) as [[e|account] tr1] eqn:Hacc.
  { cbn [snd]. pose proof (getOrCreateKillBillAccount_trace env W _ _ _ _ Hacc) as Hno.
    pose proof (filter_no_create tr1 Hno) as Hf.
    split; [rewrite Hf; cbn; lia|].
    intros base sd Hin. pose proof (Hno _ Hin). discriminate. }
  pose proof (getOrCreateKillBillAccount_trace env W _ _ _ _ Hacc) as Hno.
  pose proof (filter_no_create tr1 Hno) as Hf.
  rewrite checkExistingSubscription_spec.
  destruct (bundles_verdict _) as [s|].
  - cbn [snd]. rewrite filter_app, Hf. split; [cbn; lia|].
    intros base sd Hin. apply in_app_or in Hin. destruct Hin as [Hin|[Hin|[]]].
    + pose proof (Hno _ Hin). discriminate.
    + discriminate.
  - set (tr2 := app tr1 [CKbBundles (killbill_base env) (accountId account)]).
    pose proof (createKillBillSubscription_trace env W (accountId account) (get_prop b "planId")
                  now tr2) as Ht.
    destruct (createKillBillSubscription env W _ _ _ tr2) as [[e|sid] tr3];
      cbn [snd] in Ht |- *; subst tr3 tr2; rewrite <- app_assoc; cbn [app];
      (split; [rewrite filter_app, Hf; cbn; lia|]);
      intros base sd Hin; apply in_app_or in Hin; destruct Hin as [Hin|Hin];
      [ pose proof (Hno _ Hin); discriminate
      | destruct Hin as [Hin|[Hin|[]]]; [discriminate|];
        injection Hin as <- <-; exists tr1; split; [reflexivity|exact Hf]
      | pose proof (Hno _ Hin); discriminate
      | destruct Hin as [Hin|[Hin|[]]]; [discriminate|];
        injection Hin as <- <-; exists tr1; split; [reflexivity|exact Hf] ].
Qed.

Lemma find_first {A} (f : A -> bool) l x :
  find f l = Some x ->
  exists pre post, l = (pre ++ x :: post)%list /\ f x = true /\ forall y, In y pre -> f y = false.
Proof.
  induction l as [|y l IH]; cbn; [discriminate|].
  destruct (f y) eqn:Hy.
  - intros H. injection H as <-. exists [], l. split; [reflexivity|]. split; [exact Hy|].
    intros ? [].
  - intros H. destruct (IH H) as (pre & post & -> & Hx & Hpre).
    exists (y :: pre), post. split; [reflexivity|]. split; [exact Hx|].
    intros z [<-|Hz]; [exact Hy|apply Hpre, Hz].
Qed.

Lemma find_active_subscription_first bs s :
  find_active_subscription bs = Some s ->
  exists pre bundle post subs spre spost,
    bs = (pre ++ bundle :: post)%list /\ bundle_subscriptions bundle = Some subs /\
    subs = (spre ++ s :: spost)%list /\ active_not_cancelled s = true /\
    (forall y, In y spre -> active_not_cancelled y = false) /\
    (forall bundle' subs' y, In bundle' pre -> bundle_subscriptions bundle' = Some subs' ->
       In y subs' -> active_not_cancelled y = false).
Proof.
  induction bs as [|b bs IH]; cbn [find_active_subscription]; [discriminate|].
  destruct (bundle_subscriptions b) as [[|x xs]|] eqn:Hs.
  - intros H. destruct (IH H) as (pre & bundle & post & subs & spre & spost & -> & H1 & H2 & H3 & H4 & H5).
    exists (b :: pre), bundle, post, subs, spre, spost. repeat (split; [assumption || reflexivity|]).
    intros bundle' subs' y [<-|Hin] Hs' Hy.
    + rewrite Hs in Hs'. injection Hs' as <-. destruct Hy.
    + eapply H5; eauto.
  - destruct (find active_not_cancelled (x :: xs)) as [s'|] eqn:Hf.
    + intros H. injection H as <-.
      destruct (find_first _ _ _ Hf) as (spre & spost & Heq & Ha & Hpre).
      exists [], b, bs, (x :: xs), spre, spost. repeat (split; [assumption || reflexivity|]).
      intros ? ? ? [].
    + intros H. destruct (IH H) as (pre & bundle & post & subs & spre & spost & -> & H1 & H2 & H3 & H4 & H5).
      exists (b :: pre), bundle, post, subs, spre, spost. repeat (split; [assumption || reflexivity|]).
      intros bundle' subs' y [<-|Hin] Hs' Hy.
      * rewrite Hs in Hs'. injection Hs' as <-.
        destruct (active_not_cancelled y) eqn:Hay; [|reflexivity].
        pose proof (find_none _ _ Hf y Hy). congruence.
      * eapply H5; eauto.
  - intros H. destruct (IH H) as (pre & bundle & post & subs & spre & spost & -> & H1 & H2 & H3 & H4 & H5).
    exists (b :: pre), bundle, post, subs, spre, spost. repeat (split; [assumption || reflexivity|]).
    intros bundle' subs' y [<-|Hin] Hs' Hy.
    + congruence.
    + eapply H5; eauto.
Qed.

(** A subscription reported by [checkExistingSubscription] comes from a
    successful answer of the bundles endpoint, has state ["ACTIVE"] and a
    falsy [cancelledDate], and is the first such subscription in the order
    of the bundles and of their subscriptions. *)
Theorem check_existing_first_active env W a tr s :
  fst (checkExistingSubscription env W a tr) = inr (Some s) ->
  exists r bs pre bundle post subs spre spost,
    kb_bundles W (killbill_base env) a = Some r /\ ok r = true /\ body r = Some bs /\
    bs = (pre ++ bundle :: post)%list /\ bundle_subscriptions bundle = Some subs /\
    subs = (spre ++ s :: spost)%list /\
    sub_state s = "ACTIVE" /\ truthy_str (sub_cancelledDate s) = false /\
    (forall y, In y spre -> active_not_cancelled y = false) /\
    (forall bundle' subs' y, In bundle' pre -> bundle_subscriptions bundle' = Some subs' ->
       In y subs' -> active_not_cancelled y = false).
Proof.
  rewrite checkExistingSubscription_spec. cbn [fst]. unfold bundles_verdict.
  destruct (kb_bundles W (killbill_base env) a) as [r|]; [|discriminate].
  destruct (ok r) eqn:Hok; [|discriminate].
  destruct (body r) as [bs|] eqn:Hd; [|discriminate].
  intros H. injection H as H.
  destruct (find_active_subscription_first bs s H)
    as (pre & bundle & post & subs & spre & spost & H1 & H2 & H3 & H4 & H5 & H6).
  unfold active_not_cancelled in H4. apply andb_prop in H4. destruct H4 as [Hs Hc].
  apply String.eqb_eq in Hs. apply negb_true_iff in Hc.
  exists r, bs, pre, bundle, post, subs, spre, spost. repeat (split; [assumption || reflexivity|]).
  exact H6.
Qed.

(** ** Normalisation of the Kill Bill base URL *)

Lemma strip_trailing_slash_app b :
  strip_trailing_slash (b ++ "/") = b.
Proof.
  induction b as [|c b IH]; [reflexivity|].
  cbn [append strip_trailing_slash]. rewrite IH.
  destruct b; reflexivity.
Qed.

Lemma strip_trailing_slash_keep s :
  (forall b, s <> b ++ "/") -> strip_trailing_slash s = s.
Proof.
  induction s as [|c s IH]; intros H; [reflexivity|].
  destruct s as [|c' s'].
  - cbn. destruct (Ascii.eqb_spec c "/"%char); [|reflexivity].
    subst. exfalso. apply (H EmptyString). reflexivity.
  - change (strip_trailing_slash (String c (String c' s')))
      with (String c (strip_trailing_slash (String c' s'))).
    rewrite IH; [reflexivity|].
    intros b Hb. apply (H (String c b)). cbn. rewrite Hb. reflexivity.
Qed.

(** [baseUrl.replace(/\/$/, "")] removes exactly one final ['/'] from
    [KILLBILL_BASE_URL] and leaves any other value alone; the catalog URL
    is relative (["/1.0/kb/catalog"]) when the result is empty. *)
Theorem killbill_base_url_normalisation env :
  (forall b, env "KILLBILL_BASE_URL" = Some (b ++ "/") ->
     killbill_base env = b /\
     catalog_url env = (if String.eqb b "" then "/1.0/kb/catalog" else b ++ "/1.0/kb/catalog")) /\
  (forall s, env "KILLBILL_BASE_URL" = Some s -> (forall b, s <> b ++ "/") ->
     killbill_base env = s /\
     catalog_url env = (if String.eqb s "" then "/1.0/kb/catalog" else s ++ "/1.0/kb/catalog")) /\
  (env "KILLBILL_BASE_URL" = None ->
     killbill_base env = "" /\ catalog_url env = "/1.0/kb/catalog").
Proof.
  unfold killbill_base, catalog_url, env_or_empty.
  split; [|split].
  - intros b ->. rewrite strip_trailing_slash_app. split; reflexivity.
  - intros s -> Hs. rewrite (strip_trailing_slash_keep s Hs). split; reflexivity.
  - intros ->. split; reflexivity.
Qed.

(** ** Fields of a transformed plan *)

Lemma tier_of_enterprise n :
  is_enterprise (tier_of n) = true <-> n = "Enterprise".
Proof.
  unfold tier_of, PRODUCT_TIER_MAPPING.
  destruct (String.eqb_spec n "Free"); [subst; cbn; split; discriminate|].
  destruct (String.eqb_spec n "Basic"); [subst; cbn; split; discriminate|].
  destruct (String.eqb_spec n "Premium"); [subst; cbn; split; discriminate|].
  destruct (String.eqb_spec n "Enterprise"); [subst; cbn; split; reflexivity|].
  destruct (existsb (String.eqb n) object_prototype_keys); cbn; split;
    (discriminate || contradiction).
Qed.

(** Every plan produced by the catalog transformer comes from a plan of
    a product of the catalog: its id is the Kill Bill plan name, its
    prices are the currency and value of the prices of the plan's first
    ["EVERGREEN"] phase, its name is the product's non-empty pretty name
    or else the product name, and it is non-selectable exactly when the
    product name is exactly ["Enterprise"]. *)
Theorem transformed_plan_fields contact c p :
  In p (transform_catalog contact c) ->
  exists product plan phase,
    In product (catalog_products c) /\ In plan (product_plans product) /\
    find (fun phase => String.eqb (phase_type phase) "EVERGREEN") (kbplan_phases plan) = Some phase /\
    plan_id p = kbplan_name plan /\
    plan_prices p = map (fun price => mkPrice (kbprice_currency price) (kbprice_value price))
                        (phase_prices phase) /\
    plan_name p = (match product_prettyName product with
                   | Some s => if String.eqb s "" then product_name product else s
                   | None => product_name product
                   end) /\
    (plan_selectable p = false <-> product_name product = "Enterprise").
Proof.
  intros Hp. apply in_transform_catalog in Hp.
  destruct Hp as (product & plan & Hprod & Hplan & He).
  unfold plan_entry in He.
  destruct (find _ (kbplan_phases plan)) as [phase|] eqn:Hph; [|discriminate].
  destruct (find _ (catalog_priceLists c)); [|discriminate].
  destruct (negb _); [discriminate|].
  injection He as <-. exists product, plan, phase.
  repeat (split; [assumption || reflexivity|]). cbn.
  rewrite <- tier_of_enterprise.
  destruct (is_enterprise (tier_of (product_name product))); cbn; split; congruence.
Qed.

(** ** Feature names *)

Lemma is_word_char_upper c : is_word_char (ascii_upper c) = is_word_char c.
Proof. destruct c as [[] [] [] [] [] [] [] []]; reflexivity. Qed.

Lemma ascii_upper_idem c : ascii_upper (ascii_upper c) = ascii_upper c.
Proof. destruct c as [[] [] [] [] [] [] [] []]; reflexivity. Qed.

Lemma word_char_not_hyphen c : is_word_char c = true -> c <> "-"%char.
Proof. intros H ->. discriminate H. Qed.

Lemma upper_word_starts_length b s : String.length (upper_word_starts b s) = String.length s.
Proof. revert b; induction s as [|c s IH]; intros b; cbn; [reflexivity|]. rewrite IH. reflexivity. Qed.

Lemma map_string_length f s : String.length (map_string f s) = String.length s.
Proof. induction s as [|c s IH]; cbn; [reflexivity|]. rewrite IH. reflexivity. Qed.

Lemma replace_hyphens_length s : String.length (replace_hyphens s) = String.length s.
Proof. apply map_string_length. Qed.

Lemma upper_word_starts_no_hyphen b s c :
  (forall c', In c' (list_ascii_of_string s) -> c' <> "-"%char) ->
  In c (list_ascii_of_string (upper_word_starts b s)) -> c <> "-"%char.
Proof.
  revert b; induction s as [|c0 s IH]; intros b Hs; cbn; [intros []|].
  intros [<-|Hin].
  - destruct (negb b && is_word_char c0) eqn:Hw.
    + apply word_char_not_hyphen. rewrite is_word_char_upper.
      apply andb_prop in Hw. apply Hw.
    + apply Hs. left. reflexivity.
  - eapply IH; [|exact Hin]. intros c' Hc'. apply Hs. right. exact Hc'.
Qed.

Lemma replace_hyphens_no_hyphen s c :
  In c (list_ascii_of_string (replace_hyphens s)) -> c <> "-"%char.
Proof.
  induction s as [|c0 s IH]; cbn; [intros []|].
  intros [<-|Hin]; [|apply IH, Hin].
  destruct (Ascii.eqb_spec c0 "-"%char); [discriminate|assumption].
Qed.

Lemma replace_hyphens_id s :
  (forall c, In c (list_ascii_of_string s) -> c <> "-"%char) -> replace_hyphens s = s.
Proof.
  induction s as [|c s IH]; intros H; [reflexivity|]. cbn.
  destruct (Ascii.eqb_spec c "-"%char) as [E|_].
  - exfalso. apply (H c); [left; reflexivity | exact E].
  - unfold replace_hyphens in IH. rewrite IH; [reflexivity|].
    intros c' Hc'. apply H. right. exact Hc'.
Qed.

Lemma upper_word_starts_idem b s :
  upper_word_starts b (upper_word_starts b s) = upper_word_starts b s.
Proof.
  revert b; induction s as [|c s IH]; intros b; [reflexivity|].
  cbn [upper_word_starts].
  destruct (negb b && is_word_char c) eqn:Hw.
  - rewrite is_word_char_upper, Hw, ascii_upper_idem, IH. reflexivity.
  - rewrite Hw, IH. reflexivity.
Qed.

(** The formatting of an included feature
    ([replace(/-/g, " ").replace(/\b\w/g, upper)]) keeps the length of
    the name, leaves no ['-'] in it, and formatting an already formatted
    name changes nothing. *)
Theorem humanize_feature_properties s :
  String.length (humanize_feature s) = String.length s /\
  (forall c, In c (list_ascii_of_string (humanize_feature s)) -> c <> "-"%char) /\
  humanize_feature (humanize_feature s) = humanize_feature s.
Proof.
  unfold humanize_feature.
  assert (Hno : forall c, In c (list_ascii_of_string (upper_word_starts false (replace_hyphens s)))
                          -> c <> "-"%char).
  { intros c. apply upper_word_starts_no_hyphen. apply replace_hyphens_no_hyphen. }
  split; [|split].
  - rewrite upper_word_starts_length, replace_hyphens_length. reflexivity.
  - exact Hno.
  - rewrite (replace_hyphens_id _ Hno). apply upper_word_starts_idem.
Qed.

(** ** The subscription id read from the [Location] header *)

Lemma string_app_assoc (a b c : string) : ((a ++ b) ++ c)%string = (a ++ (b ++ c))%string.
Proof. induction a as [|x a IH]; cbn; [reflexivity|]. rewrite IH. reflexivity. Qed.

Lemma string_app_nil_r (a : string) : (a ++ "")%string = a.
Proof. induction a as [|x a IH]; cbn; [reflexivity|]. rewrite IH. reflexivity. Qed.

Lemma last_segment_noslash s acc :
  (forall c, In c (list_ascii_of_string s) -> c <> "/"%char) ->
  last_segment s acc = (acc ++ s)%string.
Proof.
  revert acc; induction s as [|c s IH]; intros acc H.
  - cbn. rewrite string_app_nil_r. reflexivity.
  - cbn [last_segment]. destruct (Ascii.eqb_spec c "/"%char) as [E|_].
    + exfalso. apply (H c); [left; reflexivity | exact E].
    + rewrite IH; [apply string_app_assoc|]. intros c' Hc'. apply H. right. exact Hc'.
Qed.

Lemma last_segment_after_slash p s acc :
  last_segment (p ++ String "/" s) acc = last_segment s EmptyString.
Proof.
  revert acc; induction p as [|c p IH]; intros acc; [reflexivity|].
  cbn [append last_segment]. destruct (Ascii.eqb c "/"%char); apply IH.
Qed.

(** [Location?.split("/").pop() || "unknown"]: without a [Location]
    header the id is ["unknown"]; otherwise it is the text after the last
    ['/'], or the whole header when it has no ['/'], and ["unknown"] when
    that text is empty (a header ending in ['/'], or an empty header). *)
Theorem subscription_id_from_location :
  subscription_id_of None = "unknown" /\
  (forall p id, (forall c, In c (list_ascii_of_string id) -> c <> "/"%char) ->
     subscription_id_of (Some (p ++ String "/" id)) = if String.eqb id "" then "unknown" else id) /\
  (forall l, (forall c, In c (list_ascii_of_string l) -> c <> "/"%char) ->
     subscription_id_of (Some l) = if String.eqb l "" then "unknown" else l).
Proof.
  split; [reflexivity|split].
  - intros p id H. unfold subscription_id_of.
    rewrite last_segment_after_slash, (last_segment_noslash id _ H). reflexivity.
  - intros l H. unfold subscription_id_of.
    rewrite (last_segment_noslash l _ H). reflexivity.
Qed.

(** ** CORS *)

Lemma truthy_str_iff o : truthy_str o = true <-> exists s, o = Some s /\ s <> "".
Proof.
  destruct o as [[|c s]|]; cbn; split.
  - discriminate.
  - intros [s [Hs Hne]]. injection Hs as <-. contradiction.
  - intros _. eexists. split; [reflexivity|discriminate].
  - reflexivity.
  - discriminate.
  - intros [s [Hs _]]. discriminate.
Qed.

(** [getAllowedOrigin]: a configured ["*"] allows every request, with or
    without an [Origin] header, and answers ["*"]; any other
    configuration allows an origin exactly when the request has a
    non-empty [Origin] equal to one of the comma-separated entries after
    trimming, and then answers that origin itself. *)
Theorem cors_allowed_origin :
  (forall o, getAllowedOrigin o "*" = Some "*") /\
  (forall cfg o s, cfg <> "*" ->
     getAllowedOrigin o cfg = Some s <->
     o = Some s /\ s <> "" /\ In s (map trim (split_on ","%char cfg))).
Proof.
  split; [reflexivity|].
  intros cfg o s Hcfg. unfold getAllowedOrigin.
  destruct (String.eqb_spec cfg "*") as [E|_]; [contradiction|].
  destruct (truthy_str o) eqn:Ht; cbn [negb].
  - apply truthy_str_iff in Ht. destruct Ht as [s0 [-> Hne]]. cbn [str_of].
    destruct (existsb (String.eqb s0) (map trim (split_on ","%char cfg))) eqn:Hex.
    + apply existsb_exists in Hex. destruct Hex as [x [Hx Hxe]].
      apply String.eqb_eq in Hxe. subst x.
      split; [intros H; injection H as <-; auto|intros [H _]; exact H].
    + split; [discriminate|]. intros [H [_ Hin]]. injection H as <-.
      assert (existsb (String.eqb s0) (map trim (split_on ","%char cfg)) = true) as Hc.
      { apply existsb_exists. exists s0. split; [exact Hin|apply String.eqb_refl]. }
      congruence.
  - split; [discriminate|]. intros [Ho [Hne _]].
    assert (truthy_str o = true) as Hc by (apply truthy_str_iff; eauto).
    congruence.
Qed.

(** [getCorsConfig]: CORS is disabled only when [CORS_ENABLED] is set to a
    value that lower-cases to ["false"]; the configured origin is
    [CORS_ORIGIN] when it is set and non-empty, else ["*"]. *)
Theorem cors_config_defaults env :
  (cors_enabled (getCorsConfig env) = false <->
   exists s, env "CORS_ENABLED" = Some s /\ toLowerCase s = "false") /\
  ((env "CORS_ORIGIN" = None \/ env "CORS_ORIGIN" = Some "") ->
   cors_origin (getCorsConfig env) = "*") /\
  (forall s, env "CORS_ORIGIN" = Some s -> s <> "" -> cors_origin (getCorsConfig env) = s).
Proof.
  unfold getCorsConfig, env_or. cbn [cors_enabled cors_origin].
  split; [|split].
  - destruct (env "CORS_ENABLED") as [s|]; split.
    + intros H. exists s. split; [reflexivity|].
      apply String.eqb_eq. destruct (String.eqb (toLowerCase s) "false"); [reflexivity|discriminate].
    + intros [s' [Hs Hl]]. injection Hs as <-. rewrite Hl. reflexivity.
    + discriminate.
    + intros [s' [Hs _]]. discriminate.
  - intros [-> | ->]; reflexivity.
  - intros s -> Hne. destruct (String.eqb_spec s ""); [contradiction|reflexivity].
Qed.

(** [corsMiddleware]: when CORS is disabled it runs the rest of the chain
    and sets no header; when enabled, a preflight [OPTIONS] request is
    answered 204 without running the rest of the chain, with the three
    CORS headers and [Access-Control-Max-Age: 86400] exactly when the
    origin is allowed; any other request runs the rest of the chain and,
    when it returns, keeps its reply and adds the three CORS headers
    exactly when the origin is allowed (an exception of the chain goes
    through with no header). *)
Theorem cors_middleware_behaviour env method origin (next : M Reply) tr :
  (cors_enabled (getCorsConfig env) = false ->
   corsMiddleware env method origin next tr
   = match next tr with
     | (inl e, tr') => (inl e, tr')
     | (inr r, tr') => (inr (r, []), tr')
     end) /\
  (cors_enabled (getCorsConfig env) = true ->
   corsMiddleware env "OPTIONS" origin next tr
   = (inr (RBodyNull 204,
           match getAllowedOrigin origin (cors_origin (getCorsConfig env)) with
           | Some a => (cors_headers a ++ [("Access-Control-Max-Age", "86400")])%list
           | None => []
           end), tr)) /\
  (cors_enabled (getCorsConfig env) = true -> method <> "OPTIONS" ->
   corsMiddleware env method origin next tr
   = match next tr with
     | (inl e, tr') => (inl e, tr')
     | (inr r, tr') =>
         (inr (r, match getAllowedOrigin origin (cors_origin (getCorsConfig env)) with
                  | Some a => cors_headers a
                  | None => []
                  end), tr')
     end).
Proof.
  assert (Hallowed : forall cfg, truthy_str (getAllowedOrigin origin cfg) = true <->
                                 getAllowedOrigin origin cfg <> None).
  { intros cfg. rewrite truthy_str_iff. unfold getAllowedOrigin.
    destruct (String.eqb_spec cfg "*").
    { split; [discriminate|intros _; exists "*"; split; [reflexivity|discriminate]]. }
    destruct (truthy_str origin) eqn:Ht; cbn [negb].
    - apply truthy_str_iff in Ht. destruct Ht as [s0 [-> Hne]]. cbn [str_of].
      destruct (existsb (String.eqb s0) (map trim (split_on ","%char cfg))).
      { split; [discriminate|intros _; exists s0; split; [reflexivity|exact Hne]]. }
      split; [intros [s [H _]]; discriminate|intros H; contradiction].
    - split; [intros [s [H _]]; discriminate|intros H; contradiction]. }
  unfold corsMiddleware, bind, ret.
  split; [|split].
  - intros ->. reflexivity.
  - intros ->. cbn [negb]. rewrite String.eqb_refl.
    destruct (getAllowedOrigin origin (cors_origin (getCorsConfig env))) as [a|] eqn:Ha.
    + assert (truthy_str (Some a) = true) as Ht.
      { rewrite <- Ha. apply Hallowed. rewrite Ha. discriminate. }
      rewrite Ht. reflexivity.
    + reflexivity.
  - intros -> Hm. cbn [negb].
    destruct (String.eqb_spec method "OPTIONS"); [contradiction|].
    destruct (next tr) as [[e|r] tr']; [reflexivity|].
    destruct (getAllowedOrigin origin (cors_origin (getCorsConfig env))) as [a|] eqn:Ha.
    + assert (truthy_str (Some a) = true) as Ht.
      { rewrite <- Ha. apply Hallowed. rewrite Ha. discriminate. }
      rewrite Ht. reflexivity.
    + reflexivity.
Qed.

(* ================================================================== *)
(** * Witnesses of the further properties *)

Lemma auth_missing_api_key_no_call_witness :
  truthy_str (env_nokey "AUTH_SUPABASE_ANON_KEY") = false /\
  run (handleMe env_nokey valid_url_fx world_plain (Some "Bearer t") req_fx)
  = (inr (err "MISSING_API_KEY" "Supabase API key not configured" 500), []).
Proof.
  split; [reflexivity|].
  destruct (auth_missing_api_key_no_call env_nokey valid_url_fx world_plain req_fx) as [H _].
  destruct (H eq_refl eq_refl) as (_ & _ & Hme).
  exact (Hme (Some "Bearer t") eq_refl).
Defined.

Lemma auth_invalid_base_url_internal_error_witness :
  valid_url_fx (env_or env_badbase "AUTH_BASE_URL" req_fx) = false /\
  run (handleLogout env_badbase valid_url_fx world_plain (Some "Bearer t") req_fx)
  = (inr internal_error, []).
Proof.
  split; [reflexivity|].
  destruct (auth_invalid_base_url_internal_error env_badbase valid_url_fx world_plain req_fx) as [H _].
  destruct (H eq_refl) as (_ & _ & Hl & _).
  exact (Hl (Some "Bearer t") eq_refl).
Defined.

Lemma auth_network_failure_internal_error_witness :
  sb_authorize world_offline "https://auth.example.com" "https://app.example.com/callback" "challenge"
  = None /\
  run (handleAuthorize env_fx valid_url_fx world_offline (Some "https://app.example.com/callback")
         (Some "challenge") req_fx)
  = (inr internal_error,
     [CSbAuthorize "https://auth.example.com" "https://app.example.com/callback" "challenge"]).
Proof.
  split; [reflexivity|].
  pose proof (auth_network_failure_internal_error env_fx valid_url_fx world_offline req_fx) as H.
  cbv zeta in H. destruct (H eq_refl) as [Ha _].
  exact (Ha "https://app.example.com/callback" "challenge"
            ltac:(discriminate) ltac:(discriminate) eq_refl eq_refl).
Defined.

Lemma auth_success_passthrough_witness :
  run (handleMe env_fx valid_url_fx world_user (Some "Bearer t") req_fx)
  = (inr (RJson (BData user_json_fx) (Some (JNum 200)) None),
     [CSbUser "https://auth.example.com" "Bearer t" "anon-key"]).
Proof.
  pose proof (auth_success_passthrough env_fx valid_url_fx world_user req_fx) as H.
  cbv zeta in H. destruct (H eq_refl eq_refl) as (_ & Hme & _).
  exact (Hme "Bearer t" (mkResp 200 None (Some user_json_fx)) user_json_fx
             ltac:(discriminate) eq_refl eq_refl eq_refl ltac:(discriminate)).
Defined.

Lemma auth_unusable_body_internal_error_witness :
  run (handleMe env_fx valid_url_fx (world_fx [] None None (Some (mkResp 200 None None)))
         (Some "Bearer t") req_fx)
  = (inr internal_error, [CSbUser "https://auth.example.com" "Bearer t" "anon-key"]).
Proof.
  pose proof (auth_unusable_body_internal_error env_fx valid_url_fx
                (world_fx [] None None (Some (mkResp 200 None None))) req_fx) as H.
  cbv zeta in H. destruct (H eq_refl eq_refl) as (_ & Hme & _).
  exact (Hme "Bearer t" (mkResp 200 None None) ltac:(discriminate) eq_refl (or_introl eq_refl)).
Defined.

Lemma refresh_token_reply_witness :
  reply_of (run (handleRefreshToken env_fx valid_url_fx
                   (world_fx [] None None
                      (token_error_fx [("error_code", JStr "refresh_token_not_found");
                                       ("msg", JStr "Invalid Refresh Token"); ("code", JNum 400)]))
                   (Some (JObj [("refresh_token", JStr "rt-1")])) req_fx))
  = Some (RJson (BError (Some (JStr "refresh_token_not_found")) (Some (JStr "Invalid Refresh Token")))
                (Some (JNum 400)) None).
Proof.
  pose proof (refresh_token_reply env_fx valid_url_fx
                (world_fx [] None None
                   (token_error_fx [("error_code", JStr "refresh_token_not_found");
                                    ("msg", JStr "Invalid Refresh Token"); ("code", JNum 400)]))
                req_fx [("refresh_token", JStr "rt-1")]
                (mkResp 400 None (Some (JObj [("error_code", JStr "refresh_token_not_found");
                                              ("msg", JStr "Invalid Refresh Token");
                                              ("code", JNum 400)])))) as H.
  cbv zeta in H. destruct (H eq_refl eq_refl eq_refl eq_refl) as [_ Hko].
  rewrite (Hko _ eq_refl eq_refl). reflexivity.
Defined.

Lemma authorize_redirect_handling_witness :
  valid_url_fx "not-a-url" = false /\
  run (handleAuthorize env_fx valid_url_fx world_plain (Some "not-a-url") (Some "challenge") req_fx)
  = (inr (err "INVALID_REDIRECT_TO" "redirect_to must be a valid URL" 400), []).
Proof.
  split; [reflexivity|].
  destruct (authorize_redirect_handling env_fx valid_url_fx world_plain "not-a-url" "challenge" req_fx
              ltac:(discriminate) ltac:(discriminate)) as [H _].
  exact (H eq_refl).
Defined.

Lemma auth_middleware_rejections_witness :
  run (authMiddleware env_nokey valid_url_fx world_user (Some "Bearer t") req_fx next_fx)
  = (inr (err "UNAUTHORIZED" "Invalid or expired token" 401), []).
Proof.
  pose proof (auth_middleware_rejections env_nokey valid_url_fx world_user req_fx) as H.
  cbv zeta in H. destruct H as (_ & _ & H & _).
  exact (H "Bearer t" next_fx ltac:(discriminate) eq_refl eq_refl).
Defined.

Lemma auth_middleware_accepts_witness :
  run (authMiddleware env_fx valid_url_fx world_user (Some "Bearer t") req_fx next_fx)
  = (inr (RJson (BData user_json_fx) (Some (JNum 200)) None),
     [CSbUser "https://auth.example.com" "Bearer t" "anon-key"]).
Proof.
  pose proof (auth_middleware_accepts env_fx valid_url_fx world_user req_fx "Bearer t"
                (mkResp 200 None (Some user_json_fx)) user_json_fx next_fx) as H.
  cbv zeta in H.
  rewrite (H ltac:(discriminate) eq_refl eq_refl eq_refl eq_refl eq_refl eq_refl eq_refl).
  reflexivity.
Defined.

Lemma getOrCreate_existing_account_witness :
  getOrCreateKillBillAccount env_fx world_plain "user-1" "ana@example.com" []
  = (inr account_fx, [CKbAccountByKey "https://billing.example.com" "user-1"]).
Proof.
  rewrite (getOrCreate_existing_account env_fx world_plain "user-1" "ana@example.com" []
             (mkResp 200 None (Some account_fx)) account_fx eq_refl eq_refl eq_refl).
  reflexivity.
Defined.

Lemma getOrCreate_creates_account_witness :
  getOrCreateKillBillAccount env_fx world_new_account "user-1" "ana@example.com" []
  = (inr account_fx,
     [CKbAccountByKey "https://billing.example.com" "user-1";
      CKbCreateAccount "https://billing.example.com"
        (mkAccountData "ana@example.com" "ana@example.com" "user-1" "");
      CKbGetAccount "https://billing.example.com/1.0/kb/accounts/acc-1"]).
Proof.
  pose proof (getOrCreate_creates_account env_fx world_new_account "user-1" "ana@example.com" [])
    as H.
  cbv zeta in H.
  destruct (H (or_intror (ex_intro _ (mkResp 404 None None) (conj eq_refl (or_introl eq_refl)))))
    as [Hc _].
  rewrite (Hc (mkResp 201 (Some "https://billing.example.com/1.0/kb/accounts/acc-1") None)
              "https://billing.example.com/1.0/kb/accounts/acc-1"
              (mkResp 200 None (Some account_fx)) account_fx
              eq_refl eq_refl eq_refl ltac:(discriminate) eq_refl eq_refl eq_refl).
  reflexivity.
Defined.

Lemma subscription_account_failure_internal_error_witness :
  reply_of (run (handleCreateSubscription env_fx url_origin_fx world_offline
                   (Some user_fx) (Some order_fx) req_fx 1700000000000%N))
  = Some (err "INTERNAL_ERROR" "Failed to create subscription" 500).
Proof.
  destruct (subscription_account_failure_internal_error env_fx url_origin_fx world_offline
              user_fx order_fx req_fx 1700000000000%N (Error "fetch failed")
              [CKbAccountByKey "https://billing.example.com" "user-1";
               CKbCreateAccount "https://billing.example.com"
                 (mkAccountData "ana@example.com" "ana@example.com" "user-1" "")]
              ltac:(discriminate) eq_refl eq_refl) as [H _].
  rewrite H. reflexivity.
Defined.

Lemma subscription_single_creation_call_witness :
  let sd := mkSubscriptionData "acc-1" ("sub-" ++ "acc-1" ++ "-" ++ N_to_decimal 1700000000000%N)
              (get_prop order_fx "planId") in
  exists tr1,
    snd (run (handleCreateSubscription env_fx url_origin_fx
                (world_fx [] (bundles_fx [sub_cancelled]) created_fx None)
                (Some user_fx) (Some order_fx) req_fx 1700000000000%N))
    = app tr1 [CKbBundles "https://billing.example.com" "acc-1";
               CKbCreateSubscription "https://billing.example.com" sd]
    /\ filter is_create_subscription tr1 = [].
Proof.
  intros sd.
  destruct (subscription_single_creation_call env_fx url_origin_fx
              (world_fx [] (bundles_fx [sub_cancelled]) created_fx None)
              (Some user_fx) (Some order_fx) req_fx 1700000000000%N) as [_ H].
  apply (H "https://billing.example.com" sd).
  vm_compute. repeat (first [left; reflexivity | right]).
Defined.

Lemma check_existing_first_active_witness :
  fst (checkExistingSubscription env_fx (world_fx [] (bundles_fx [sub_cancelled; sub_active]) None None)
         "acc-1" [])
  = inr (Some sub_active) /\
  truthy_str (sub_cancelledDate sub_active) = false.
Proof.
  assert (H1 : fst (checkExistingSubscription env_fx
                      (world_fx [] (bundles_fx [sub_cancelled; sub_active]) None None) "acc-1" [])
               = inr (Some sub_active)) by (vm_compute; reflexivity).
  split; [exact H1|].
  destruct (check_existing_first_active env_fx
              (world_fx [] (bundles_fx [sub_cancelled; sub_active]) None None) "acc-1" [] sub_active H1)
    as (r & bs & pre & bundle & post & subs & spre & spost & _ & _ & _ & _ & _ & _ & _ & Hc & _).
  exact Hc.
Defined.

Lemma killbill_base_url_normalisation_witness :
  killbill_base env_fx = "https://billing.example.com" /\
  catalog_url env_fx = "https://billing.example.com/1.0/kb/catalog".
Proof.
  destruct (killbill_base_url_normalisation env_fx) as [H _].
  exact (H "https://billing.example.com" eq_refl).
Defined.

Lemma transformed_plan_fields_witness :
  exists p, In p plans_fx /\ plan_selectable p = false /\
    exists product, In product (catalog_products catalog_fx) /\ product_name product = "Enterprise".
Proof.
  exists (mkPlan "Enterprise-ANNUAL" "Enterprise" (TierStr "enterprise") []
            [mkPrice "USD" 10] false (Some (getEnterpriseContactConfig env_fx))).
  assert (Hin : In (mkPlan "Enterprise-ANNUAL" "Enterprise" (TierStr "enterprise") []
                       [mkPrice "USD" 10] false (Some (getEnterpriseContactConfig env_fx))) plans_fx)
    by (vm_compute; repeat (first [left; reflexivity | right])).
  split; [exact Hin|]. split; [reflexivity|].
  destruct (transformed_plan_fields _ _ _ Hin)
    as (product & plan & phase & Hprod & _ & _ & _ & _ & _ & Hsel).
  exists product. split; [exact Hprod|]. apply Hsel. reflexivity.
Defined.

Lemma humanize_feature_properties_witness :
  humanize_feature (humanize_feature "api-access") = "Api Access".
Proof.
  destruct (humanize_feature_properties "api-access") as (_ & _ & H).
  rewrite H. reflexivity.
Defined.

Lemma subscription_id_from_location_witness :
  subscription_id_of (Some "https://billing.example.com/1.0/kb/subscriptions/sub-42") = "sub-42".
Proof.
  destruct subscription_id_from_location as (_ & H & _).
  refine (H "https://billing.example.com/1.0/kb/subscriptions" "sub-42" _).
  intros c Hc. cbn in Hc. repeat (destruct Hc as [<-|Hc]; [discriminate|]). destruct Hc.
Defined.

Lemma cors_allowed_origin_witness :
  getAllowedOrigin (Some "https://b.example.com") "https://a.example.com, https://b.example.com"
  = Some "https://b.example.com".
Proof.
  destruct cors_allowed_origin as [_ H].
  apply H; [discriminate|]. split; [reflexivity|]. split; [discriminate|].
  vm_compute. right. left. reflexivity.
Defined.

Lemma cors_config_defaults_witness :
  cors_origin (getCorsConfig env_fx) = "*" /\ cors_enabled (getCorsConfig env_fx) = true.
Proof.
  destruct (cors_config_defaults env_fx) as (H1 & H2 & _).
  split; [apply H2; left; reflexivity|].
  apply Bool.not_false_iff_true. intros E.
  apply H1 in E. destruct E as [s [Hs _]]. discriminate Hs.
Defined.

Lemma cors_middleware_behaviour_witness :
  corsMiddleware env_fx "OPTIONS" (Some "https://app.example.com") (next_fx user_json_fx) []
  = (inr (RBodyNull 204, (cors_headers "*" ++ [("Access-Control-Max-Age", "86400")])%list), []).
Proof.
  destruct (cors_middleware_behaviour env_fx "OPTIONS" (Some "https://app.example.com")
              (next_fx user_json_fx) []) as (_ & H & _).
  exact (H eq_refl).
Defined.
